(** * PyTerminal: the classifier, the builtins and the history ledger

    A shallow embedding of [app.py] (the Flask front end) and of
    [terminal.py] (the line-editing front end) of PyTerminal, and the
    properties of their command dispatcher.

    Layout:
    - [PyStr]     the Python string operations the dispatcher relies on;
    - [Py]        exceptions, the state-and-exception monad, the interface
                  to the operating system and to the external services;
    - [Shared]    what both front ends write out in the same words;
    - [App]       [app.py];
    - [Terminal]  [terminal.py];
    - [SimOS]     an executable operating system (a directory tree, a
                  current directory, a translator table) to run both on;
    - [Logic]     the predicates the properties are stated with;
    - [Samples]   concrete worlds;
    - the lemmas and the properties, about [app.py] and [terminal.py]
      alike unless a name says otherwise.

    Text is modelled as [string], a sequence of 8-bit characters: the
    dispatcher is followed on ASCII text, where [str.lower], [str.split]
    and [str.strip] act character by character. *)

From Stdlib Require Import Ascii String.
From stdpp Require Import gmap strings list pretty sorting.

Open Scope string_scope.

(** ** Python strings *)

Module PyStr.

(** [str.isspace] on one character of the ASCII range: TAB, LF, VT, FF,
    CR, the four separators FS, GS, RS, US, and the blank. *)
Definition isspace (c : ascii) : bool :=
  let n := nat_of_ascii c in
  ((9 <=? n)%nat && (n <=? 13)%nat) || ((28 <=? n)%nat && (n <=? 32)%nat).

Definition lower_char (c : ascii) : ascii :=
  let n := nat_of_ascii c in
  if (65 <=? n)%nat && (n <=? 90)%nat then ascii_of_nat (n + 32) else c.

(** [s.lower()] *)
Fixpoint lower (s : string) : string :=
  match s with
  | "" => ""
  | String c s' => String (lower_char c) (lower s')
  end.

(** [s.startswith(p)] *)
Fixpoint startswith (s p : string) : bool :=
  match p, s with
  | "", _ => true
  | String a p', String b s' => if decide (a = b) then startswith s' p' else false
  | String _ _, "" => false
  end.

(** [p in s] *)
Fixpoint str_in (p s : string) : bool :=
  startswith s p ||
  match s with
  | "" => false
  | String _ s' => str_in p s'
  end.

(** [s.split()]: the maximal runs of characters that are not white
    space, in order; never an empty word. *)
Fixpoint split (s : string) : list string :=
  match s with
  | "" => []
  | String c s' =>
      if isspace c then split s'
      else
        match s' with
        | "" => [String c ""]
        | String c' _ =>
            if isspace c' then String c "" :: split s'
            else
              match split s' with
              | w :: ws => String c w :: ws
              | [] => [String c ""]
              end
        end
  end.

Fixpoint lstrip (s : string) : string :=
  match s with
  | "" => ""
  | String c s' => if isspace c then lstrip s' else s
  end.

Fixpoint rstrip (s : string) : string :=
  match s with
  | "" => ""
  | String c s' =>
      match rstrip s' with
      | "" => if isspace c then "" else String c ""
      | r => String c r
      end
  end.

(** [s.strip()] *)
Definition strip (s : string) : string := rstrip (lstrip s).

(** ["sep".join(l)] *)
Fixpoint join (sep : string) (l : list string) : string :=
  match l with
  | [] => ""
  | [x] => x
  | x :: l' => x ++ sep ++ join sep l'
  end.

(** [c * n] *)
Fixpoint repeat_char (c : ascii) (n : nat) : string :=
  match n with
  | 0 => ""
  | S n' => String c (repeat_char c n')
  end.

(** [f"{s:<w}"]: pad with blanks on the right up to width [w]. *)
Definition ljust (w : nat) (s : string) : string :=
  s ++ repeat_char " " (w - String.length s).

(** [f"{s:>w}"], the layout of [f"{i:2d}"]: pad on the left. *)
Definition rjust (w : nat) (s : string) : string :=
  repeat_char " " (w - String.length s) ++ s.

(** [any(pattern in s for pattern in patterns)] *)
Definition any_in (patterns : list string) (s : string) : bool :=
  existsb (fun p => str_in p s) patterns.

(** [w in words] for a list of words *)
Definition elem (w : string) (words : list string) : bool :=
  bool_decide (w ∈ words).

(** Every character of [s] is white space. *)
Fixpoint blank (s : string) : bool :=
  match s with
  | "" => true
  | String c s' => isspace c && blank s'
  end.

End PyStr.


(** ** Exceptions, effects and the outside world *)

Module Py.

(** The exception classes the handlers tell apart.  [OSError] stands for
    an [OSError] of no more specific class listed here, [Exception] for
    any other exception. *)
Inductive exn_kind : Type :=
  | FileNotFoundError | NotADirectoryError | IsADirectoryError
  | FileExistsError | PermissionError | ConnectionError | OSError
  | UnicodeDecodeError
  | NoSuchProcess | AccessDenied | ZombieProcess
  | TimeoutExpired
  | AuthenticationError | RateLimitError | APIConnectionError | APIError
  | InvalidRequestError | Timeout
  | Exception.

(** An exception object: its class and [str(e)]. *)
Record exn : Type := Exn { exn_kind_of : exn_kind; str : string }.

(** [isinstance(e, OSError)] *)
Definition is_OSError (k : exn_kind) : bool :=
  match k with
  | FileNotFoundError | NotADirectoryError | IsADirectoryError
  | FileExistsError | PermissionError | ConnectionError | OSError => true
  | _ => false
  end.

(** What a call into the operating system or a library answers. *)
Inductive answer (A : Type) : Type :=
  | Ok (a : A)
  | Fails (e : exn).
Arguments Ok {A} a.
Arguments Fails {A} e.

(** What a computation of the program ends in.  [OutOfFuel] is the
    model's own: the recursion went deeper than the fuel given. *)
Inductive outcome (A : Type) : Type :=
  | Return (a : A)
  | Raise (e : exn)
  | OutOfFuel.
Arguments Return {A} a.
Arguments Raise {A} e.
Arguments OutOfFuel {A}.

(** [psutil.virtual_memory()]: the fields read, [percent] as printed. *)
Record vmem : Type := VMem {
  vm_percent : string;
  vm_total : N;
  vm_available : N;
  vm_used : N
}.

(** The operating system, the libraries and the services the program
    calls, over a world [W] they act on. *)
Class Sys (W : Type) : Type := {
  (** [bool(os.getenv('OPENAI_API_KEY'))], fixed when the module loads *)
  AI_ENABLED : bool;
  os_getcwd : W → answer string * W;
  os_chdir : string → W → answer () * W;
  (** [os.makedirs(name, exist_ok=False)] *)
  os_makedirs : string → W → answer () * W;
  os_remove : string → W → answer () * W;
  os_listdir : string → W → answer (list string) * W;
  os_path_exists : string → W → bool;
  os_path_isdir : string → W → bool;
  os_path_isfile : string → W → bool;
  os_path_getsize : string → W → answer N * W;
  os_path_expanduser : string → W → string;
  os_path_join : string → string → string;
  (** [open(name, 'r', encoding='utf-8', errors='replace').read()] *)
  read_text : string → W → answer string * W;
  (** [psutil.cpu_percent(interval=1)], as [str] prints the float *)
  psutil_cpu_percent : W → answer string * W;
  psutil_virtual_memory : W → answer vmem * W;
  (** [psutil.process_iter(['pid', 'name'])]: one item per process; reading
      [proc.info] of an item answers the pair or fails *)
  psutil_process_iter : W → answer (list (answer (N * string))) * W;
  (** [openai.ChatCompletion.create(...).choices[0].message.content] for
      the fixed system prompt and the given user message *)
  openai_chat_completion : string → W → answer string * W;
  (** [subprocess.run(command, shell=True, capture_output=True, text=True,
      timeout=30)]: return code, standard output, standard error *)
  subprocess_run : string → W → answer (Z * string * string) * W;
  (** [os.name] and [os.system(command)] *)
  os_name : string;
  os_system : string → W → W;
  (** [str(uuid.uuid4())] *)
  uuid4 : W → string * W;
  (** [datetime.now().isoformat()] *)
  now_isoformat : W → string * W
}.

(** What the dispatcher is seen to call outside the builtins. *)
Inductive event : Type :=
  | EvTranslate (instruction : string)
  | EvExternal (command_line : string)
  | EvPrint (text : string).

Global Instance event_eq_dec : EqDecision event.
Proof. solve_decision. Defined.


Definition is_external (ev : event) : bool :=
  match ev with EvExternal _ => true | _ => false end.

(** One entry of [command_history[session_id]]. *)
Record HistoryEntry : Type := Entry {
  timestamp : string;
  command : string;
  output : string;
  success : bool
}.

(** The state of the process: the world outside, the calls made so far
    (a ghost trace), and the two pieces of state of the Flask front end,
    the ['session_id'] key of the request's session and the module-level
    dictionary [command_history]. *)
Record state (W : Type) : Type := State {
  world : W;
  trace : list event;
  session : option string;
  command_history : gmap string (list HistoryEntry)
}.
Arguments State {W} _ _ _ _.
Arguments world {W} _.
Arguments trace {W} _.
Arguments session {W} _.
Arguments command_history {W} _.

Definition M (W A : Type) : Type := state W → outcome A * state W.

Global Instance M_ret {W} : MRet (M W) := λ A a s, (Return a, s).

Global Instance M_bind {W} : MBind (M W) := λ A B k m s,
  match m s with
  | (Return a, s') => k a s'
  | (Raise e, s') => (Raise e, s')
  | (OutOfFuel, s') => (OutOfFuel, s')
  end.

(** [try: m except Exception as e: h e].  The handler runs in the state
    the body left. *)
Definition try_except {W A} (m : M W A) (h : exn → M W A) : M W A := λ s,
  match m s with
  | (Raise e, s') => h e s'
  | r => r
  end.

Definition raise {W A} (e : exn) : M W A := λ s, (Raise e, s).

Definition out_of_fuel {W A} : M W A := λ s, (OutOfFuel, s).

(** A call that may change the world and may fail. *)
Definition call {W A} (f : W → answer A * W) : M W A := λ s,
  let '(r, w) := f (world s) in
  let s' := State w (trace s) (session s) (command_history s) in
  match r with
  | Ok a => (Return a, s')
  | Fails e => (Raise e, s')
  end.

(** A call that only reads the world and cannot fail. *)
Definition query {W A} (f : W → A) : M W A := λ s, (Return (f (world s)), s).

(** A call that changes the world and cannot fail. *)
Definition draw {W A} (f : W → A * W) : M W A := λ s,
  let '(a, w) := f (world s) in
  (Return a, State w (trace s) (session s) (command_history s)).

Definition emit {W} (ev : event) : M W () := λ s,
  (Return (), State (world s) (trace s ++ [ev]) (session s) (command_history s)).

Definition get_session {W} : M W (option string) := λ s, (Return (session s), s).

Definition set_session {W} (sid : string) : M W () := λ s,
  (Return (), State (world s) (trace s) (Some sid) (command_history s)).

Definition get_command_history {W} : M W (gmap string (list HistoryEntry)) :=
  λ s, (Return (command_history s), s).

Definition set_command_history {W} (h : gmap string (list HistoryEntry)) : M W () :=
  λ s, (Return (), State (world s) (trace s) (session s) h).

(** The triple [(success, output, error)] every handler returns. *)
Definition CommandResult : Type := bool * string * string.

End Py.

(** ** Code that [app.py] and [terminal.py] write out in the same words *)

Module Shared.
Import PyStr Py.

Definition nl : string := String "010" "".

(** The reserved words of the length test of [run_command]. *)
Definition native_commands : list string :=
  ["pwd"; "ls"; "cd"; "mkdir"; "rm"; "cat"; "cpu"; "mem"; "memory";
   "processes"; "ps"; "help"; "tellmeabout_developer"; "clear"].

Definition natural_language_patterns : list string :=
  ["show me"; "list all"; "create a"; "what is"; "how to"; "can you"].

(** [for x in l: ...] with an effect per element *)
Fixpoint for_each {W A B} (f : A → M W B) (l : list A) : M W (list B) :=
  match l with
  | [] => mret []
  | x :: l' => y ← f x; ys ← for_each f l'; mret (y :: ys)
  end.

(** [sorted(items)] and [list.sort(key=...)]: a stable sort by [key], the
    order being [le] on the keys. *)
Fixpoint insert_by {A K} (le : K → K → bool) (key : A → K) (x : A) (l : list A) : list A :=
  match l with
  | [] => [x]
  | y :: l' => if le (key x) (key y) then x :: l else y :: insert_by le key x l'
  end.

Definition sort_by {A K} (le : K → K → bool) (key : A → K) (l : list A) : list A :=
  foldr (insert_by le key) [] l.

Definition sorted (items : list string) : list string :=
  sort_by String.leb id items.

(** The size suffix of [_handle_ls]. *)
Definition size_str (size : N) : string :=
  if (size <? 1024)%N then pretty size ++ "B"
  else if (size <? 1024 * 1024)%N then pretty (size / 1024)%N ++ "KB"
  else pretty (size / (1024 * 1024))%N ++ "MB".

(** [f"{n / d:.1f}"]: one decimal, the tie rounded to the even digit.
    The quotient is exact in a double for a byte count below 2^53 and a
    power of 1024 as [d]. *)
Definition fmt1 (n d : N) : string :=
  let q := (n * 10 / d)%N in
  let r := (n * 10 mod d)%N in
  let up := ((d <? 2 * r) || ((2 * r =? d) && N.odd q))%N in
  let t := if up then (q + 1)%N else q in
  pretty (t / 10)%N ++ "." ++ pretty (t mod 10)%N.

(** [format_bytes] of [_handle_memory]: the value is [n / d]. *)
Fixpoint format_bytes_from (units : list string) (n d : N) : string :=
  match units with
  | [] => fmt1 n d ++ " PB"
  | unit :: units' =>
      if (n <? 1024 * d)%N then fmt1 n d ++ " " ++ unit
      else format_bytes_from units' n (1024 * d)%N
  end.

Definition format_bytes (bytes_value : N) : string :=
  format_bytes_from ["B"; "KB"; "MB"; "GB"; "TB"] bytes_value 1.

(** The first loop of [_handle_processes]: count every item, keep the
    pair of each one that can be read, skip the three [psutil] failures,
    let any other failure through. *)
Fixpoint collect_processes (items : list (answer (N * string)))
    (processes : list (N * string)) (total_count : nat)
    : answer (list (N * string) * nat) :=
  match items with
  | [] => Ok (processes, total_count)
  | proc :: items' =>
      let total_count := total_count + 1 in
      match proc with
      | Ok info => collect_processes items' (processes ++ [info])%list total_count
      | Fails e =>
          match exn_kind_of e with
          | NoSuchProcess | AccessDenied | ZombieProcess =>
              collect_processes items' processes total_count
          | _ => Fails e
          end
      end
  end.

(** [processes.sort(key=lambda x: x[0])] *)
Definition sort_processes (processes : list (N * string)) : list (N * string) :=
  sort_by N.leb fst processes.

(** [f"{pid:<8} {name}\n"] for each of [processes[:20]] *)
Definition process_lines (processes : list (N * string)) : string :=
  foldr (λ '(pid, name) acc, ljust 8 (pretty pid) ++ " " ++ name ++ nl ++ acc) ""
    (take 20 processes).

(** [l[-20:]] *)
Definition last20 {A} (l : list A) : list A := drop (length l - 20) l.

End Shared.

(** ** [app.py] *)

Module App.
Import PyStr Py Shared.

Section WithSys.
Context {W : Type} {sys : Sys W}.

(** [get_session_id()] *)
Definition get_session_id : M W string :=
  sid ← get_session;
  match sid with
  | Some session_id => mret session_id
  | None => session_id ← draw uuid4; set_session session_id;; mret session_id
  end.

(** [add_to_history(session_id, command, output, success)] *)
Definition add_to_history (session_id command output : string) (success : bool) : M W () :=
  h ← get_command_history;
  let h : gmap string (list HistoryEntry) :=
    match h !! session_id with
    | Some _ => h
    | None => <[session_id := []]> h
    end in
  now ← draw now_isoformat;
  set_command_history
    (<[session_id := (default [] (h !! session_id) ++ [Entry now command output success])%list]> h).

Definition _handle_pwd : M W CommandResult :=
  try_except
    (current_dir ← call os_getcwd; mret (true, current_dir, ""))
    (λ e, mret (false, "", "Error getting current directory: " ++ str e)).

(** The body of the loop of [_handle_ls]. *)
Definition ls_line (target_dir item : string) : M W string :=
  let item_path := os_path_join target_dir item in
  is_dir ← query (os_path_isdir item_path);
  if (is_dir : bool) then mret ("📁 " ++ item ++ "/")
  else
    try_except
      (size ← call (os_path_getsize item_path);
       mret ("📄 " ++ item ++ " (" ++ size_str size ++ ")"))
      (λ e, if is_OSError (exn_kind_of e) then mret ("📄 " ++ item) else raise e).

Definition _handle_ls (args : list string) : M W CommandResult :=
  try_except
    (let target_dir := match args with a :: _ => a | [] => "." end in
     ex ← query (os_path_exists target_dir);
     if negb ex then mret (false, "", "Directory not found: '" ++ target_dir ++ "'")
     else
       is_dir ← query (os_path_isdir target_dir);
       if negb is_dir then mret (false, "", "Not a directory: '" ++ target_dir ++ "'")
       else
         items ← call (os_listdir target_dir);
         match items with
         | [] => mret (true, "Directory is empty", "")
         | _ =>
             output_lines ← for_each (ls_line target_dir) (sorted items);
             mret (true, join nl output_lines, "")
         end)
    (λ e, mret (false, "", "Error listing directory: " ++ str e)).

Definition _handle_cd_robust (args : list string) : M W CommandResult :=
  match args with
  | [] => mret (false, "", "cd: missing directory argument. Usage: cd <directory>")
  | target_dir :: _ =>
      try_except
        ((if decide (target_dir = "..") then call (os_chdir "..")
          else if decide (target_dir = ".") then mret ()
          else if startswith target_dir "~" then
            target_dir ← query (os_path_expanduser target_dir);
            call (os_chdir target_dir)
          else call (os_chdir target_dir));;
         cwd ← call os_getcwd;
         mret (true, "Changed to: " ++ cwd, ""))
        (λ e,
           match exn_kind_of e with
           | FileNotFoundError => mret (false, "", "cd: no such directory: '" ++ target_dir ++ "'")
           | NotADirectoryError => mret (false, "", "cd: not a directory: '" ++ target_dir ++ "'")
           | PermissionError => mret (false, "", "cd: permission denied: '" ++ target_dir ++ "'")
           | _ => mret (false, "", "cd: error: " ++ str e)
           end)
  end.

Definition _handle_mkdir_robust (args : list string) : M W CommandResult :=
  match args with
  | [] => mret (false, "", "mkdir: missing directory name. Usage: mkdir <directory_name>")
  | dir_name :: _ =>
      try_except
        (call (os_makedirs dir_name);;
         mret (true, "Created directory: " ++ dir_name, ""))
        (λ e,
           match exn_kind_of e with
           | FileExistsError =>
               mret (false, "", "mkdir: cannot create directory '" ++ dir_name ++ "': File exists")
           | PermissionError =>
               mret (false, "", "mkdir: permission denied: '" ++ dir_name ++ "'")
           | k =>
               if is_OSError k then
                 mret (false, "", "mkdir: cannot create directory '" ++ dir_name ++ "': " ++ str e)
               else mret (false, "", "mkdir: error: " ++ str e)
           end)
  end.

Definition _handle_rm_robust (args : list string) : M W CommandResult :=
  match args with
  | [] => mret (false, "", "rm: missing file name. Usage: rm <file_name>")
  | file_name :: _ =>
      try_except
        (is_dir ← query (os_path_isdir file_name);
         if (is_dir : bool) then
           mret (false, "", "rm: cannot remove '" ++ file_name ++ "': Is a directory")
         else
           call (os_remove file_name);;
           mret (true, "Removed file: " ++ file_name, ""))
        (λ e,
           match exn_kind_of e with
           | FileNotFoundError =>
               mret (false, "", "rm: cannot remove '" ++ file_name ++ "': No such file")
           | IsADirectoryError =>
               mret (false, "", "rm: cannot remove '" ++ file_name ++ "': Is a directory")
           | PermissionError => mret (false, "", "rm: permission denied: '" ++ file_name ++ "'")
           | _ => mret (false, "", "rm: error: " ++ str e)
           end)
  end.

Definition _handle_cat_robust (args : list string) : M W CommandResult :=
  match args with
  | [] => mret (false, "", "cat: missing file name. Usage: cat <file_name>")
  | file_name :: _ =>
      try_except
        (ex ← query (os_path_exists file_name);
         if negb ex then mret (false, "", "cat: no such file: '" ++ file_name ++ "'")
         else
           is_file ← query (os_path_isfile file_name);
           if negb is_file then mret (false, "", "cat: '" ++ file_name ++ "' is not a file")
           else
             content ← call (read_text file_name);
             mret (true, content, ""))
        (λ e,
           match exn_kind_of e with
           | FileNotFoundError => mret (false, "", "cat: no such file: '" ++ file_name ++ "'")
           | PermissionError => mret (false, "", "cat: permission denied: '" ++ file_name ++ "'")
           | UnicodeDecodeError =>
               mret (false, "",
                     "cat: cannot read file (binary or encoding issue): '" ++ file_name ++ "'")
           | _ => mret (false, "", "cat: error: " ++ str e)
           end)
  end.

Definition _handle_cpu : M W CommandResult :=
  try_except
    (cpu_percent ← call psutil_cpu_percent;
     mret (true, "CPU Usage: " ++ cpu_percent ++ "%", ""))
    (λ e, mret (false, "", "Error getting CPU usage: " ++ str e)).

Definition _handle_memory : M W CommandResult :=
  try_except
    (memory ← call psutil_virtual_memory;
     let total := format_bytes (vm_total memory) in
     let available := format_bytes (vm_available memory) in
     let used := format_bytes (vm_used memory) in
     let output := "Memory Usage: " ++ vm_percent memory ++ "%" ++ nl in
     let output := output ++ "Total: " ++ total ++ " | Available: " ++ available
                     ++ " | Used: " ++ used in
     mret (true, output, ""))
    (λ e, mret (false, "", "Error getting memory usage: " ++ str e)).

(** The text [_handle_processes] builds from what the first loop kept. *)
Definition processes_output (processes : list (N * string)) (total_count : nat) : string :=
  let processes := sort_processes processes in
  let output := "Total Processes: " ++ pretty total_count ++ nl in
  let output := output ++ "Showing top 20:" ++ nl in
  let output := output ++ "PID     Name" ++ nl in
  let output := output ++ repeat_char "-" 30 ++ nl in
  let output := output ++ process_lines processes in
  if (20 <? total_count)%nat then
    output ++ "... and " ++ pretty (total_count - 20)%nat ++ " more processes"
  else output.

Definition _handle_processes : M W CommandResult :=
  try_except
    (items ← call psutil_process_iter;
     '(processes, total_count) ← call (λ w, (collect_processes items [] 0, w));
     mret (true, processes_output processes total_count, ""))
    (λ e, mret (false, "", "Error getting process list: " ++ str e)).

Definition _handle_help : M W CommandResult :=
  let ai_status := if AI_ENABLED then "Enabled" else "Disabled" in
  let help_text := "Available Commands:
ls <dir>     - List files and directories in the current folder
cd <dir>     - Change the current working directory
pwd          - Print the current working directory
mkdir <dir>  - Create a new directory
rm <file>    - Remove a file
cat <file>   - Display the contents of a file
cpu          - Show CPU usage percentage
mem/memory   - Show Memory usage statistics
processes/ps - List running processes
clear        - Clear the terminal screen
history      - Show command history
help         - Show this help message
tellmeabout_developer - Show developer information

AI Features:
Natural Language - Type natural language commands (3+ words)
AI Status: " ++ ai_status ++ "

Note: External system commands are also supported through subprocess.

designed by Abhinav" in
  try_except (mret (true, help_text, ""))
    (λ e, mret (false, "", "Error displaying help: " ++ str e)).

Definition _handle_developer_info : M W CommandResult :=
  let developer_info := "
+==============================================================+
|                    DEVELOPER INFORMATION                    |
+==============================================================+
|                                                              |
|  Name:    Abhinav Singh (RA2211033010203)                   |
|                                                              |
|  College: SRM Institute of Science and Technology          |
|                                                              |
|  Course:  B.Tech Computer Science Engineering with        |
|            specialization in Software Engineering              |
|                                                              |
+==============================================================+

Thank you for using PyTerminal Web!
" in
  try_except (mret (true, developer_info, ""))
    (λ e, mret (false, "", "Error displaying developer information: " ++ str e)).

Definition _handle_clear : M W CommandResult := mret (true, "CLEAR_SCREEN", "").

(** [f"{i:2d}. {status} {entry['command']}\n"] over [enumerate(entries, i)] *)
Fixpoint history_lines (i : nat) (entries : list HistoryEntry) : string :=
  match entries with
  | [] => ""
  | entry :: entries' =>
      let status := if success entry then "✓" else "✗" in
      rjust 2 (pretty i) ++ ". " ++ status ++ " " ++ command entry ++ nl
        ++ history_lines (S i) entries'
  end.

Definition _handle_history : M W CommandResult :=
  try_except
    (session_id ← get_session_id;
     h ← get_command_history;
     match h !! session_id with
     | None | Some [] => mret (true, "No commands in history", "")
     | Some entries =>
         let history_output := "Command History:" ++ nl in
         let history_output := history_output ++ repeat_char "-" 50 ++ nl in
         mret (true, history_output ++ history_lines 1 (last20 entries), "")
     end)
    (λ e, mret (false, "", "Error displaying history: " ++ str e)).

(** [interpret_natural_language(user_input)]: the four-tuple
    [(success, command, explanation, error)]. *)
Definition interpret_natural_language (user_input : string)
    : M W (bool * string * string * string) :=
  if negb AI_ENABLED then
    mret (false, "", "",
          "AI features are disabled. Please set OPENAI_API_KEY environment variable.")
  else
    try_except
      (emit (EvTranslate user_input);;
       content ← call (openai_chat_completion user_input);
       let ai_response := strip content in
       if decide (ai_response = "") then
         mret (false, "", "", "AI could not generate a valid command.")
       else
         let command := ai_response in
         let explanation := "AI converted: '" ++ user_input ++ "' to terminal command" in
         mret (true, command, explanation, ""))
      (λ e, mret (false, "", "", "AI Error: " ++ str e)).

(** [_handle_ai_command]; [run_command] is the dispatcher it calls back. *)
Definition _handle_ai_command (run_command : string → M W CommandResult)
    (natural_language_input : string) : M W CommandResult :=
  '(success, command, explanation, error) ← interpret_natural_language natural_language_input;
  if negb success then mret (false, "", error)
  else if decide (command = "") then mret (false, "", "AI could not generate a valid command.")
  else run_command command.

Definition _handle_external_command (command : string) : M W CommandResult :=
  try_except
    (emit (EvExternal command);;
     '(returncode, stdout, stderr) ← call (subprocess_run command);
     if decide (returncode = 0%Z) then mret (true, stdout, stderr)
     else mret (false, stdout, stderr))
    (λ e,
       match exn_kind_of e with
       | TimeoutExpired => mret (false, "", "Command timed out after 30 seconds")
       | FileNotFoundError =>
           let cmd_name := match split command with w :: _ => w | [] => "command" end in
           mret (false, "", "command not found: " ++ cmd_name)
       | _ => mret (false, "", "Error executing external command: " ++ str e)
       end).

(** The [if]/[elif] chain of [run_command] on the command word. *)
Definition native (cmd : string) (args : list string) (command : string)
    : M W CommandResult :=
  if decide (cmd = "pwd") then _handle_pwd
  else if decide (cmd = "ls") then _handle_ls args
  else if decide (cmd = "cd") then _handle_cd_robust args
  else if decide (cmd = "mkdir") then _handle_mkdir_robust args
  else if decide (cmd = "rm") then _handle_rm_robust args
  else if decide (cmd = "cat") then _handle_cat_robust args
  else if decide (cmd = "cpu") then _handle_cpu
  else if elem cmd ["mem"; "memory"] then _handle_memory
  else if elem cmd ["processes"; "ps"] then _handle_processes
  else if decide (cmd = "help") then _handle_help
  else if decide (cmd = "tellmeabout_developer") then _handle_developer_info
  else if decide (cmd = "clear") then _handle_clear
  else if decide (cmd = "history") then _handle_history
  else _handle_external_command command.

(** [run_command(command)].  The recursion through [_handle_ai_command]
    is open in the source; [fuel] bounds its depth here. *)
Fixpoint run_command (fuel : nat) (command : string) : M W CommandResult :=
  match fuel with
  | 0 => out_of_fuel
  | S fuel' =>
      let parts := split (strip command) in
      match parts with
      | [] => mret (false, "", "Empty command")
      | part0 :: args =>
          let cmd := lower part0 in
          if (2 <? length parts)%nat && negb (elem cmd native_commands) && AI_ENABLED then
            _handle_ai_command (run_command fuel') command
          else if any_in natural_language_patterns (lower command) && AI_ENABLED then
            _handle_ai_command (run_command fuel') command
          else native cmd args command
      end
  end.

(** A JSON value of a response, and the object [jsonify] is given. *)
Inductive jvalue : Type :=
  | JBool (b : bool)
  | JStr (s : string)
  | JEntries (l : list HistoryEntry).

Definition response : Type := list (string * jvalue).

(** [execute_command()] of the route [/execute]; [posted] is
    [data.get('command', '')] of the request body. *)
Definition execute_command (fuel : nat) (posted : string) : M W response :=
  try_except
    (let command := strip posted in
     if decide (command = "") then
       mret [("success", JBool false); ("output", JStr ""); ("error", JStr "Empty command")]
     else if elem (lower command) ["exit"; "quit"; "q"] then
       mret [("success", JBool true); ("output", JStr "Goodbye!"); ("error", JStr "");
             ("exit", JBool true)]
     else
       '(success, output, error) ← run_command fuel command;
       session_id ← get_session_id;
       add_to_history session_id command output success;;
       if decide (output = "CLEAR_SCREEN") then
         mret [("success", JBool true); ("output", JStr ""); ("error", JStr "");
               ("clear", JBool true)]
       else
         current_dir ← call os_getcwd;
         mret [("success", JBool success); ("output", JStr output); ("error", JStr error);
               ("current_dir", JStr current_dir)])
    (λ e,
       mret [("success", JBool false); ("output", JStr "");
             ("error", JStr ("Server error: " ++ str e))]).

(** [get_history()] of the route [/history] *)
Definition get_history : M W response :=
  try_except
    (session_id ← get_session_id;
     h ← get_command_history;
     let history := default [] (h !! session_id) in
     mret [("history", JEntries history)])
    (λ e, mret [("error", JStr ("Error getting history: " ++ str e))]).

End WithSys.
End App.

(** ** [terminal.py] *)

Module Terminal.
Import PyStr Py Shared.

(** The [colorama] escape sequences used. *)
Definition esc (code : string) : string := String "027" ("[" ++ code ++ "m").

Module Fore.
Definition RED : string := esc "31".
Definition GREEN : string := esc "32".
Definition YELLOW : string := esc "33".
Definition BLUE : string := esc "34".
Definition MAGENTA : string := esc "35".
Definition CYAN : string := esc "36".
Definition LIGHTGREEN_EX : string := esc "92".
Definition LIGHTBLUE_EX : string := esc "94".
End Fore.

Module Style.
Definition BRIGHT : string := esc "1".
Definition RESET_ALL : string := esc "0".
End Style.

Section WithSys.
Context {W : Type} {sys : Sys W}.

Definition _handle_pwd : M W CommandResult :=
  try_except
    (current_dir ← call os_getcwd; mret (true, current_dir ++ nl, ""))
    (λ e, mret (false, "", "Error getting current directory: " ++ str e)).

Definition ls_line (target_dir item : string) : M W string :=
  let item_path := os_path_join target_dir item in
  is_dir ← query (os_path_isdir item_path);
  if (is_dir : bool) then mret ("📁 " ++ item ++ "/")
  else
    try_except
      (size ← call (os_path_getsize item_path);
       mret ("📄 " ++ item ++ " (" ++ size_str size ++ ")"))
      (λ e, if is_OSError (exn_kind_of e) then mret ("📄 " ++ item) else raise e).

Definition _handle_ls (args : list string) : M W CommandResult :=
  try_except
    (let target_dir := match args with a :: _ => a | [] => "." end in
     ex ← query (os_path_exists target_dir);
     if negb ex then mret (false, "", "Directory not found: '" ++ target_dir ++ "'")
     else
       is_dir ← query (os_path_isdir target_dir);
       if negb is_dir then mret (false, "", "Not a directory: '" ++ target_dir ++ "'")
       else
         items ← call (os_listdir target_dir);
         match items with
         | [] => mret (true, "Directory is empty" ++ nl, "")
         | _ =>
             output_lines ← for_each (ls_line target_dir) (sorted items);
             mret (true, join nl output_lines ++ nl, "")
         end)
    (λ e, mret (false, "", "Error listing directory: " ++ str e)).

(** [_handle_mkdir], the older handler: [run_command] does not call it. *)
Definition _handle_mkdir (args : list string) : M W CommandResult :=
  try_except
    (match args with
     | [] => mret (false, "", "mkdir: missing operand")
     | dir_name :: _ =>
         ex ← query (os_path_exists dir_name);
         if (ex : bool) then
           is_dir ← query (os_path_isdir dir_name);
           if (is_dir : bool) then
             mret (false, "", "Directory already exists: '" ++ dir_name ++ "'")
           else mret (false, "", "File exists with same name: '" ++ dir_name ++ "'")
         else
           call (os_makedirs dir_name);;
           mret (true, "Created directory: " ++ dir_name ++ nl, "")
     end)
    (λ e,
       let arg0 := match args with a :: _ => a | [] => "" end in
       match exn_kind_of e with
       | FileExistsError => mret (false, "", "Directory already exists: '" ++ arg0 ++ "'")
       | PermissionError => mret (false, "", "Permission denied: '" ++ arg0 ++ "'")
       | _ => mret (false, "", "Error creating directory: " ++ str e)
       end).

Definition _handle_cpu : M W CommandResult :=
  try_except
    (cpu_percent ← call psutil_cpu_percent;
     mret (true, Fore.YELLOW ++ "CPU Usage: " ++ cpu_percent ++ "%" ++ Style.RESET_ALL ++ nl, ""))
    (λ e, mret (false, "", "Error getting CPU usage: " ++ str e)).

Definition _handle_memory : M W CommandResult :=
  try_except
    (memory ← call psutil_virtual_memory;
     let total := format_bytes (vm_total memory) in
     let available := format_bytes (vm_available memory) in
     let used := format_bytes (vm_used memory) in
     let output := Fore.YELLOW ++ "Memory Usage: " ++ vm_percent memory ++ "%"
                     ++ Style.RESET_ALL ++ nl in
     let output := output ++ Fore.YELLOW ++ "Total: " ++ total ++ " | Available: "
                     ++ available ++ " | Used: " ++ used ++ Style.RESET_ALL ++ nl in
     mret (true, output, ""))
    (λ e, mret (false, "", "Error getting memory usage: " ++ str e)).

Definition processes_output (processes : list (N * string)) (total_count : nat) : string :=
  let processes := sort_processes processes in
  let output := "Total Processes: " ++ pretty total_count ++ nl in
  let output := output ++ "Showing top 20:" ++ nl in
  let output := output ++ "PID     Name" ++ nl in
  let output := output ++ repeat_char "-" 30 ++ nl in
  let output := output ++ process_lines processes in
  if (20 <? total_count)%nat then
    output ++ "... and " ++ pretty (total_count - 20)%nat ++ " more processes" ++ nl
  else output.

Definition _handle_processes : M W CommandResult :=
  try_except
    (items ← call psutil_process_iter;
     '(processes, total_count) ← call (λ w, (collect_processes items [] 0, w));
     mret (true, processes_output processes total_count, ""))
    (λ e, mret (false, "", "Error getting process list: " ++ str e)).

(** One line of the command table of [_handle_help]. *)
Definition help_entry (name description : string) : string :=
  Fore.CYAN ++ name ++ Style.RESET_ALL ++ description ++ nl.

Definition _handle_help : M W CommandResult :=
  let ai_status :=
    if AI_ENABLED then Fore.GREEN ++ "Enabled" ++ Style.RESET_ALL
    else Fore.RED ++ "Disabled" ++ Style.RESET_ALL in
  let help_text :=
    Fore.BLUE ++ "Available Commands:" ++ Style.RESET_ALL ++ nl
    ++ help_entry "ls <dir>" "     - List files and directories in the current folder"
    ++ help_entry "cd <dir>" "     - Change the current working directory"
    ++ help_entry "pwd" "          - Print the current working directory"
    ++ help_entry "mkdir <dir>" "  - Create a new directory"
    ++ help_entry "rm <file>" "    - Remove a file"
    ++ help_entry "cat <file>" "   - Display the contents of a file"
    ++ help_entry "cpu" "          - Show CPU usage percentage"
    ++ help_entry "mem/memory" "   - Show Memory usage statistics"
    ++ help_entry "processes/ps" " - List running processes"
    ++ help_entry "clear" "        - Clear the terminal screen"
    ++ help_entry "help" "         - Show this help message"
    ++ help_entry "tellmeabout_developer" " - Show developer information"
    ++ help_entry "exit/quit" "    - Exit the terminal"
    ++ nl
    ++ Fore.MAGENTA ++ "AI Features:" ++ Style.RESET_ALL ++ nl
    ++ help_entry "Natural Language" " - Type natural language commands (3+ words)"
    ++ help_entry "AI Status:" (" " ++ ai_status)
    ++ nl
    ++ Fore.YELLOW
    ++ "Note: External system commands are also supported through subprocess."
    ++ Style.RESET_ALL ++ nl
    ++ nl
    ++ Fore.LIGHTBLUE_EX ++ "designed by Abhinav" ++ Style.RESET_ALL in
  try_except (mret (true, help_text ++ nl, ""))
    (λ e, mret (false, "", "Error displaying help: " ++ str e)).

(** A row of the box of [_handle_developer_info]. *)
Definition box_row (inner : string) : string :=
  Fore.CYAN ++ "|" ++ Style.RESET_ALL ++ inner ++ Fore.CYAN ++ "|" ++ Style.RESET_ALL ++ nl.

Definition box_rule : string :=
  Fore.CYAN ++ "+==============================================================+"
    ++ Style.RESET_ALL ++ nl.

Definition box_blank : string :=
  box_row "                                                              ".

Definition _handle_developer_info : M W CommandResult :=
  let developer_info :=
    nl ++ box_rule
    ++ Fore.CYAN ++ "|                    " ++ Style.BRIGHT ++ "DEVELOPER INFORMATION"
    ++ Style.RESET_ALL ++ Fore.CYAN ++ "                    |" ++ Style.RESET_ALL ++ nl
    ++ box_rule
    ++ box_blank
    ++ box_row ("  " ++ Fore.GREEN ++ "Name:" ++ Style.RESET_ALL
                ++ "    Abhinav Singh (RA2211033010203)                    ")
    ++ box_blank
    ++ box_row ("  " ++ Fore.GREEN ++ "College:" ++ Style.RESET_ALL
                ++ " SRM Institute of Science and Technology          ")
    ++ box_blank
    ++ box_row ("  " ++ Fore.GREEN ++ "Course:" ++ Style.RESET_ALL
                ++ "  B.Tech Computer Science Engineering with        ")
    ++ box_row "            specialization in Software Engineering              "
    ++ box_blank
    ++ box_rule
    ++ nl
    ++ Fore.LIGHTBLUE_EX ++ "Thank you for using PyTerminal!" ++ Style.RESET_ALL ++ nl in
  try_except (mret (true, developer_info, ""))
    (λ e, mret (false, "", "Error displaying developer information: " ++ str e)).

(** The red text of the failures of [interpret_natural_language]. *)
Definition red (text : string) : string := Fore.RED ++ text ++ Style.RESET_ALL.

Definition interpret_natural_language (user_input : string)
    : M W (bool * string * string * string) :=
  if negb AI_ENABLED then
    mret (false, "", "",
          red "AI features are disabled. Please set OPENAI_API_KEY environment variable.")
  else
    try_except
      (emit (EvTranslate user_input);;
       content ← call (openai_chat_completion user_input);
       let ai_response := strip content in
       if decide (ai_response = "") then
         mret (false, "", "", red "AI could not generate a valid command.")
       else
         let command := ai_response in
         let explanation := "AI converted: '" ++ user_input ++ "' to terminal command" in
         mret (true, command, explanation, ""))
      (λ e,
         let error :=
           match exn_kind_of e with
           | AuthenticationError =>
               "AI Error: Invalid API key. Please check your OPENAI_API_KEY."
           | RateLimitError =>
               "AI Error: Rate limit exceeded. Please try again in a moment."
           | APIConnectionError =>
               "AI Error: Unable to connect to OpenAI service. Check your internet connection."
           | APIError => "AI Error: OpenAI API error - " ++ str e
           | InvalidRequestError => "AI Error: Invalid request - " ++ str e
           | Timeout => "AI Error: Request timed out. Please try again."
           | ConnectionError =>
               "AI Error: Network connection failed. Please check your internet connection."
           | _ => "AI Error: Unexpected error occurred - " ++ str e
           end in
         mret (false, "", "", red error)).

(** [print(text)] *)
Definition print (text : string) : M W () := emit (EvPrint (text ++ nl)).

(** [print(text, end="")] *)
Definition print_noend (text : string) : M W () := emit (EvPrint text).

Definition _handle_ai_command (run_command : string → M W CommandResult)
    (natural_language_input : string) : M W CommandResult :=
  '(success, command, explanation, error) ← interpret_natural_language natural_language_input;
  if negb success then mret (false, "", error)
  else if decide (command = "") then
    mret (false, "", red "AI could not generate a valid command.")
  else
    print (Fore.CYAN ++ "AI Suggestion: " ++ command ++ Style.RESET_ALL);;
    (if decide (explanation = "") then mret ()
     else print (Fore.YELLOW ++ "Explanation: " ++ explanation ++ Style.RESET_ALL));;
    print "";;
    run_command command.

Definition _handle_cd_robust (args : list string) : M W CommandResult :=
  match args with
  | [] => mret (false, "", "cd: missing directory argument. Usage: cd <directory>")
  | target_dir :: _ =>
      try_except
        ((if decide (target_dir = "..") then call (os_chdir "..")
          else if decide (target_dir = ".") then mret ()
          else if startswith target_dir "~" then
            target_dir ← query (os_path_expanduser target_dir);
            call (os_chdir target_dir)
          else call (os_chdir target_dir));;
         mret (true, "", ""))
        (λ e,
           match exn_kind_of e with
           | FileNotFoundError => mret (false, "", "cd: no such directory: '" ++ target_dir ++ "'")
           | NotADirectoryError => mret (false, "", "cd: not a directory: '" ++ target_dir ++ "'")
           | PermissionError => mret (false, "", "cd: permission denied: '" ++ target_dir ++ "'")
           | _ => mret (false, "", "cd: error: " ++ str e)
           end)
  end.

Definition _handle_mkdir_robust (args : list string) : M W CommandResult :=
  match args with
  | [] => mret (false, "", "mkdir: missing directory name. Usage: mkdir <directory_name>")
  | dir_name :: _ =>
      try_except
        (call (os_makedirs dir_name);;
         mret (true, Fore.GREEN ++ "Created directory: " ++ dir_name ++ Style.RESET_ALL ++ nl, ""))
        (λ e,
           match exn_kind_of e with
           | FileExistsError =>
               mret (false, "", "mkdir: cannot create directory '" ++ dir_name ++ "': File exists")
           | PermissionError =>
               mret (false, "", "mkdir: permission denied: '" ++ dir_name ++ "'")
           | k =>
               if is_OSError k then
                 mret (false, "", "mkdir: cannot create directory '" ++ dir_name ++ "': " ++ str e)
               else mret (false, "", "mkdir: error: " ++ str e)
           end)
  end.

Definition _handle_rm_robust (args : list string) : M W CommandResult :=
  match args with
  | [] => mret (false, "", "rm: missing file name. Usage: rm <file_name>")
  | file_name :: _ =>
      try_except
        (is_dir ← query (os_path_isdir file_name);
         if (is_dir : bool) then
           mret (false, "", "rm: cannot remove '" ++ file_name ++ "': Is a directory")
         else
           call (os_remove file_name);;
           mret (true, Fore.GREEN ++ "Removed file: " ++ file_name ++ Style.RESET_ALL ++ nl, ""))
        (λ e,
           match exn_kind_of e with
           | FileNotFoundError =>
               mret (false, "", "rm: cannot remove '" ++ file_name ++ "': No such file")
           | IsADirectoryError =>
               mret (false, "", "rm: cannot remove '" ++ file_name ++ "': Is a directory")
           | PermissionError => mret (false, "", "rm: permission denied: '" ++ file_name ++ "'")
           | _ => mret (false, "", "rm: error: " ++ str e)
           end)
  end.

Definition _handle_cat_robust (args : list string) : M W CommandResult :=
  match args with
  | [] => mret (false, "", "cat: missing file name. Usage: cat <file_name>")
  | file_name :: _ =>
      try_except
        (ex ← query (os_path_exists file_name);
         if negb ex then mret (false, "", "cat: no such file: '" ++ file_name ++ "'")
         else
           is_file ← query (os_path_isfile file_name);
           if negb is_file then mret (false, "", "cat: '" ++ file_name ++ "' is not a file")
           else
             content ← call (read_text file_name);
             mret (true, content ++ nl, ""))
        (λ e,
           match exn_kind_of e with
           | FileNotFoundError => mret (false, "", "cat: no such file: '" ++ file_name ++ "'")
           | PermissionError => mret (false, "", "cat: permission denied: '" ++ file_name ++ "'")
           | UnicodeDecodeError =>
               mret (false, "",
                     "cat: cannot read file (binary or encoding issue): '" ++ file_name ++ "'")
           | _ => mret (false, "", "cat: error: " ++ str e)
           end)
  end.

Definition _handle_external_command (command : string) : M W CommandResult :=
  try_except
    (emit (EvExternal command);;
     '(returncode, stdout, stderr) ← call (subprocess_run command);
     if decide (returncode = 0%Z) then mret (true, stdout, stderr)
     else mret (false, stdout, stderr))
    (λ e,
       match exn_kind_of e with
       | TimeoutExpired => mret (false, "", "Command timed out after 30 seconds")
       | FileNotFoundError =>
           let cmd_name := match split command with w :: _ => w | [] => "command" end in
           mret (false, "", "command not found: " ++ cmd_name)
       | _ => mret (false, "", "Error executing external command: " ++ str e)
       end).

(** The [if]/[elif] chain of [run_command]: no branch for [clear]. *)
Definition native (cmd : string) (args : list string) (command : string)
    : M W CommandResult :=
  if decide (cmd = "pwd") then _handle_pwd
  else if decide (cmd = "ls") then _handle_ls args
  else if decide (cmd = "cd") then _handle_cd_robust args
  else if decide (cmd = "mkdir") then _handle_mkdir_robust args
  else if decide (cmd = "rm") then _handle_rm_robust args
  else if decide (cmd = "cat") then _handle_cat_robust args
  else if decide (cmd = "cpu") then _handle_cpu
  else if elem cmd ["mem"; "memory"] then _handle_memory
  else if elem cmd ["processes"; "ps"] then _handle_processes
  else if decide (cmd = "help") then _handle_help
  else if decide (cmd = "tellmeabout_developer") then _handle_developer_info
  else _handle_external_command command.

Fixpoint run_command (fuel : nat) (command : string) : M W CommandResult :=
  match fuel with
  | 0 => out_of_fuel
  | S fuel' =>
      let parts := split (strip command) in
      match parts with
      | [] => mret (false, "", "Empty command")
      | part0 :: args =>
          let cmd := lower part0 in
          if (2 <? length parts)%nat && negb (elem cmd native_commands) && AI_ENABLED then
            _handle_ai_command (run_command fuel') command
          else if any_in natural_language_patterns (lower command) && AI_ENABLED then
            _handle_ai_command (run_command fuel') command
          else native cmd args command
      end
  end.

(** The banner [main] prints at the start and after [clear]. *)
Definition print_header : M W () :=
  print (Fore.CYAN ++ repeat_char "=" 60);;
  print (Fore.CYAN ++ Style.BRIGHT ++ "            PyTerminal (Python Powered)");;
  print (Fore.LIGHTBLUE_EX ++ "                designed by Abhinav");;
  print (Fore.YELLOW ++ "Type 'help' for available commands.");;
  print (Fore.CYAN ++ repeat_char "=" 60).

(** One turn of the loop of [main] once [input] has returned
    [user_input]: [true] to go on, [false] after [break]. *)
Definition main_step (fuel : nat) (user_input : string) : M W bool :=
  if decide (user_input = "") then mret true
  else if elem (lower user_input) ["exit"; "quit"; "q"] then print "Goodbye!";; mret false
  else if decide (lower user_input = "clear") then
    draw (λ w, ((), os_system (if decide (os_name = "nt") then "cls" else "clear") w));;
    print_header;;
    mret true
  else
    try_except
      ('(success, output, error) ← run_command fuel user_input;
       (if (success : bool) then
          (if decide (output = "") then mret () else print_noend output);;
          (if decide (error = "") then mret ()
           else print_noend (Fore.YELLOW ++ "Warning: " ++ error ++ Style.RESET_ALL))
        else
          (if decide (error = "") then mret ()
           else print_noend (Fore.RED ++ "Error: " ++ error ++ Style.RESET_ALL));;
          (if decide (output = "") then mret () else print_noend ("Output: " ++ output)));;
       mret true)
      (λ e, print (nl ++ "Unexpected error: " ++ str e);; mret true).

End WithSys.
End Terminal.

(** ** An executable operating system

    A POSIX-like world to run the two front ends on: a directory tree
    without links or permissions, a current directory, a home directory,
    and tables for the services.  The library calls follow the CPython
    and POSIX behaviour on such a tree. *)

Module SimOS.
Import PyStr Py Shared.

Inductive node : Type :=
  | Dir
  | File (content : string).

(** The world.  [fs] maps the absolute path of every entry below the
    root, as its list of names, to its node; the root is a directory. *)
Record sim : Type := Sim {
  fs : gmap (list string) node;
  cwd : list string;
  home : string;
  translator : string → answer string;
  shell : string → answer (Z * string * string);
  procs : list (answer (N * string));
  clock : nat
}.

Definition with_fs (w : sim) (fs' : gmap (list string) node) : sim :=
  Sim fs' (cwd w) (home w) (translator w) (shell w) (procs w) (clock w).

Definition with_cwd (w : sim) (cwd' : list string) : sim :=
  Sim (fs w) cwd' (home w) (translator w) (shell w) (procs w) (clock w).

Definition tick (w : sim) : sim :=
  Sim (fs w) (cwd w) (home w) (translator w) (shell w) (procs w) (S (clock w)).

Definition node_at (t : gmap (list string) node) (p : list string) : option node :=
  match p with
  | [] => Some Dir
  | _ => t !! p
  end.

(** [s.split(sep)] for a one-character separator *)
Fixpoint split_on (sep : ascii) (s : string) : list string :=
  match s with
  | "" => [""]
  | String c s' =>
      if decide (c = sep) then "" :: split_on sep s'
      else
        match split_on sep s' with
        | w :: ws => String c w :: ws
        | [] => [String c ""]
        end
  end.

Definition child (base : list string) (c : string) : list string := (base ++ [c])%list.

(** [s.rstrip('/')] *)
Fixpoint rstrip_slash (s : string) : string :=
  match s with
  | "" => ""
  | String c s' =>
      match rstrip_slash s' with
      | "" => if decide (c = "/"%char) then "" else String c ""
      | r => String c r
      end
  end.

Definition os_error (k : exn_kind) (errno message path : string) : exn :=
  Exn k ("[Errno " ++ errno ++ "] " ++ message ++ ": '" ++ path ++ "'").

Definition ENOENT := os_error FileNotFoundError "2" "No such file or directory".
Definition EEXIST := os_error FileExistsError "17" "File exists".
Definition ENOTDIR := os_error NotADirectoryError "20" "Not a directory".
Definition EISDIR := os_error IsADirectoryError "21" "Is a directory".

(** Walk the names [comps] from the directory [base]: every step is made
    from an existing directory; the place reached need not exist. *)
Fixpoint walk (t : gmap (list string) node) (path : string) (base comps : list string)
    : answer (list string) :=
  match comps with
  | [] => Ok base
  | c :: comps' =>
      if decide (c = "") then walk t path base comps'
      else
        match node_at t base with
        | None => Fails (ENOENT path)
        | Some (File _) => Fails (ENOTDIR path)
        | Some Dir =>
            if decide (c = ".") then walk t path base comps'
            else if decide (c = "..") then walk t path (removelast base) comps'
            else walk t path (child base c) comps'
        end
  end.

(** The absolute place a path names. *)
Definition resolve (w : sim) (path : string) : answer (list string) :=
  if decide (path = "") then Fails (ENOENT path)
  else
    walk (fs w) path (if startswith path "/" then [] else cwd w) (split_on "/" path).

Definition lookup_path (w : sim) (path : string) : option node :=
  match resolve w path with
  | Ok p => node_at (fs w) p
  | Fails _ => None
  end.

Definition sim_getcwd (w : sim) : answer string * sim :=
  (Ok ("/" ++ join "/" (cwd w)), w).

Definition sim_chdir (path : string) (w : sim) : answer () * sim :=
  match resolve w path with
  | Fails e => (Fails e, w)
  | Ok p =>
      match node_at (fs w) p with
      | None => (Fails (ENOENT path), w)
      | Some (File _) => (Fails (ENOTDIR path), w)
      | Some Dir => (Ok (), with_cwd w p)
      end
  end.

(** [os.mkdir] of the name [c] in the directory [base]. *)
Definition mkdir_at (t : gmap (list string) node) (path : string) (base : list string)
    (c : string) : answer (gmap (list string) node) :=
  match node_at t base with
  | None => Fails (ENOENT path)
  | Some (File _) => Fails (ENOTDIR path)
  | Some Dir =>
      match node_at t (child base c) with
      | Some _ => Fails (EEXIST path)
      | None => Ok (<[child base c := Dir]> t)
      end
  end.

(** [os.makedirs(path, exist_ok=False)] from [base]: every missing
    directory on the way is made, then the last one, which must be new. *)
Fixpoint makedirs_from (t : gmap (list string) node) (path : string)
    (base comps : list string) : answer (gmap (list string) node) * gmap (list string) node :=
  match comps with
  | [] => (Fails (EEXIST path), t)
  | c :: comps' =>
      if decide (c = "") then makedirs_from t path base comps'
      else if decide (c = ".") then
        match node_at t base with
        | Some Dir => makedirs_from t path base comps'
        | Some (File _) => (Fails (ENOTDIR path), t)
        | None => (Fails (ENOENT path), t)
        end
      else if decide (c = "..") then
        match node_at t base with
        | Some Dir => makedirs_from t path (removelast base) comps'
        | Some (File _) => (Fails (ENOTDIR path), t)
        | None => (Fails (ENOENT path), t)
        end
      else if forallb (λ c', bool_decide (c' = "")) comps' then
        match mkdir_at t path base c with
        | Ok t' => (Ok t', t')
        | Fails e => (Fails e, t)
        end
      else
        match node_at t (child base c) with
        | Some Dir => makedirs_from t path (child base c) comps'
        | Some (File _) => (Fails (ENOTDIR path), t)
        | None =>
            match mkdir_at t path base c with
            | Ok t' => makedirs_from t' path (child base c) comps'
            | Fails e => (Fails e, t)
            end
        end
  end.

Definition sim_makedirs (path : string) (w : sim) : answer () * sim :=
  if decide (path = "") then (Fails (ENOENT path), w)
  else
    let '(r, t) :=
      makedirs_from (fs w) path (if startswith path "/" then [] else cwd w)
        (split_on "/" path) in
    match r with
    | Ok _ => (Ok (), with_fs w t)
    | Fails e => (Fails e, with_fs w t)
    end.

Definition sim_remove (path : string) (w : sim) : answer () * sim :=
  match resolve w path with
  | Fails e => (Fails e, w)
  | Ok p =>
      match node_at (fs w) p with
      | None => (Fails (ENOENT path), w)
      | Some Dir => (Fails (EISDIR path), w)
      | Some (File _) => (Ok (), with_fs w (delete p (fs w)))
      end
  end.

(** The names of the entries of the directory [p]. *)
Definition entries (t : gmap (list string) node) (p : list string) : list string :=
  omap (λ '(q, _), if decide (removelast q = p) then last q else None) (map_to_list t).

Definition sim_listdir (path : string) (w : sim) : answer (list string) * sim :=
  match resolve w path with
  | Fails e => (Fails e, w)
  | Ok p =>
      match node_at (fs w) p with
      | None => (Fails (ENOENT path), w)
      | Some (File _) => (Fails (ENOTDIR path), w)
      | Some Dir => (Ok (entries (fs w) p), w)
      end
  end.

Definition sim_exists (path : string) (w : sim) : bool :=
  match lookup_path w path with Some _ => true | None => false end.

Definition sim_isdir (path : string) (w : sim) : bool :=
  match lookup_path w path with Some Dir => true | _ => false end.

Definition sim_isfile (path : string) (w : sim) : bool :=
  match lookup_path w path with Some (File _) => true | _ => false end.

Definition sim_getsize (path : string) (w : sim) : answer N * sim :=
  match lookup_path w path with
  | Some (File content) => (Ok (N.of_nat (String.length content)), w)
  | Some Dir => (Ok 4096%N, w)
  | None => (Fails (ENOENT path), w)
  end.

(** [posixpath.expanduser] with [HOME] set and no other user known. *)
Definition sim_expanduser (path : string) (w : sim) : string :=
  match path with
  | String c rest =>
      if bool_decide (c = "~"%char) && (bool_decide (rest = "") || startswith rest "/") then
        match rstrip_slash (home w) ++ rest with
        | "" => "/"
        | expanded => expanded
        end
      else path
  | "" => path
  end.

(** [posixpath.join(a, b)] *)
Definition sim_join (a b : string) : string :=
  if startswith b "/" then b
  else if bool_decide (a = "") || startswith (String.rev a) "/" then a ++ b
  else a ++ "/" ++ b.

Definition sim_read_text (path : string) (w : sim) : answer string * sim :=
  match resolve w path with
  | Fails e => (Fails e, w)
  | Ok p =>
      match node_at (fs w) p with
      | None => (Fails (ENOENT path), w)
      | Some Dir => (Fails (EISDIR path), w)
      | Some (File content) => (Ok content, w)
      end
  end.

Definition sim_uuid4 (w : sim) : string * sim :=
  ("uuid-" ++ pretty (clock w), tick w).

Definition sim_now_isoformat (w : sim) : string * sim :=
  ("T" ++ pretty (clock w), tick w).

(** The world as a [Sys]; [ai] is whether the API key was set. *)
Definition sim_sys (ai : bool) : Sys sim := {|
  AI_ENABLED := ai;
  os_getcwd := sim_getcwd;
  os_chdir := sim_chdir;
  os_makedirs := sim_makedirs;
  os_remove := sim_remove;
  os_listdir := sim_listdir;
  os_path_exists := sim_exists;
  os_path_isdir := sim_isdir;
  os_path_isfile := sim_isfile;
  os_path_getsize := sim_getsize;
  os_path_expanduser := sim_expanduser;
  os_path_join := sim_join;
  read_text := sim_read_text;
  psutil_cpu_percent := λ w, (Ok "12.5", w);
  psutil_virtual_memory := λ w, (Ok (VMem "50.0" 8589934592 4294967296 4294967296), w);
  psutil_process_iter := λ w, (Ok (procs w), w);
  openai_chat_completion := λ user_input w, (translator w user_input, w);
  subprocess_run := λ command w, (shell w command, w);
  os_name := "posix";
  os_system := λ _ w, w;
  uuid4 := sim_uuid4;
  now_isoformat := sim_now_isoformat
|}.

(** A fresh process state over the world [w]. *)
Definition boot (w : sim) : state sim := State w [] None ∅.

End SimOS.

(** ** Predicates on computations *)

Module Logic.
Import PyStr Py Shared.

(** [m] takes every state to one related to it by [R]. *)
Definition frame {W A} (R : state W → state W → Prop) (m : M W A) : Prop :=
  ∀ s, R s (m s).2.

(** [m] ends within the fuel it is given. *)
Definition total {W A} (m : M W A) : Prop :=
  ∀ s, (m s).1 ≠ OutOfFuel.


(** The trace of [s'] is that of [s] followed by events that satisfy [P]. *)
Definition grows {W} (P : event → Prop) (s s' : state W) : Prop :=
  ∃ t, trace s' = (trace s ++ t)%list ∧ Forall P t.

(** The ledger of [s'] is that of [s]. *)
Definition same_history {W} (s s' : state W) : Prop :=
  command_history s' = command_history s.


(** The test [run_command] makes before it looks at the builtins: the
    line goes to [_handle_ai_command]. *)
Definition routes_to_ai (ai_enabled : bool) (command : string) : bool :=
  let parts := split (strip command) in
  match parts with
  | [] => false
  | part0 :: _ =>
      ((2 <? length parts)%nat && negb (elem (lower part0) native_commands) && ai_enabled)
      || (any_in natural_language_patterns (lower command) && ai_enabled)
  end.

(** The command words [run_command] of [app.py] has a branch for. *)
Definition app_registry : list string :=
  ["pwd"; "ls"; "cd"; "mkdir"; "rm"; "cat"; "cpu"; "mem"; "memory";
   "processes"; "ps"; "help"; "tellmeabout_developer"; "clear"; "history"].

(** The command words [run_command] of [terminal.py] has a branch for. *)
Definition terminal_registry : list string :=
  ["pwd"; "ls"; "cd"; "mkdir"; "rm"; "cat"; "cpu"; "mem"; "memory";
   "processes"; "ps"; "help"; "tellmeabout_developer"].

(** A name of a directory entry: not empty, no separator, neither of the
    two dot names. *)
Definition plain (name : string) : Prop :=
  name ≠ "" ∧ name ≠ "." ∧ name ≠ ".." ∧ SimOS.split_on "/" name = [name].

(** The absolute path [os.getcwd] gives for the place [p]. *)
Definition absolute (p : list string) : string := "/" ++ join "/" p.

(** The state after a call that changed the world to [w]. *)
Definition moved {W} (s : state W) (w : W) : state W :=
  State w (trace s) (session s) (command_history s).

(** What [_handle_cd_robust] calls [os.chdir] on, if it calls it: [None]
    for [.]. *)
Definition chdir_argument {W} {sys : Sys W} (target_dir : string) (w : W) : option string :=
  if decide (target_dir = "..") then Some ".."
  else if decide (target_dir = ".") then None
  else if startswith target_dir "~" then Some (os_path_expanduser target_dir w)
  else Some target_dir.

(** The message of [_handle_cd_robust] for an exception of [os.chdir]. *)
Definition cd_error (target_dir : string) (e : exn) : string :=
  match exn_kind_of e with
  | FileNotFoundError => "cd: no such directory: '" ++ target_dir ++ "'"
  | NotADirectoryError => "cd: not a directory: '" ++ target_dir ++ "'"
  | PermissionError => "cd: permission denied: '" ++ target_dir ++ "'"
  | _ => "cd: error: " ++ str e
  end.

(** The processes whose [info] can be read, in the order of the
    enumeration. *)
Definition readable (items : list (answer (N * string))) : list (N * string) :=
  omap (λ item, match item with Ok info => Some info | Fails _ => None end) items.

(** Reading the item succeeds, or fails in one of the three ways
    [_handle_processes] skips. *)
Definition skippable (item : answer (N * string)) : Prop :=
  match item with
  | Ok _ => True
  | Fails e =>
      exn_kind_of e = NoSuchProcess ∨ exn_kind_of e = AccessDenied
      ∨ exn_kind_of e = ZombieProcess
  end.

(** [pids] ascend. *)
Definition ascending (processes : list (N * string)) : Prop :=
  Sorted (λ a b, (a.1 ≤ b.1)%N) processes.

End Logic.

(** ** Concrete worlds *)

Module Samples.
Import PyStr Py Shared SimOS.

(** [/home/u] holds a directory [demo] and two files. *)
Definition tree : gmap (list string) node :=
  list_to_map
    [(["home"], Dir); (["home"; "u"], Dir); (["home"; "u"; "demo"], Dir);
     (["home"; "u"; "notes.txt"], File "hello"); (["home"; "u"; "b.txt"], File "x")].

(** [/home/u] holds a file [demo]. *)
Definition tree_file : gmap (list string) node :=
  list_to_map
    [(["home"], Dir); (["home"; "u"], Dir); (["home"; "u"; "demo"], File "a file")].

(** A translator that needs two rounds to reach a shell command. *)
Definition two_rounds (instruction : string) : answer string :=
  if decide (instruction = "show me a") then Ok "show me b"
  else if decide (instruction = "show me b") then Ok "ls"
  else if decide (instruction = "what is here") then Ok "ls"
  else Fails (Exn APIError "no completion").

(** A translator that gives the instruction back. *)
Definition echo (instruction : string) : answer string := Ok instruction.

Definition sh (command_line : string) : answer (Z * string * string) :=
  Ok (0%Z, "ran: " ++ command_line, "").

Definition world0 : sim := Sim tree ["home"; "u"] "/home/u" two_rounds sh [] 0.

Definition world_file : sim := Sim tree_file ["home"; "u"] "/home/u" two_rounds sh [] 0.

Definition world_echo : sim := Sim tree ["home"; "u"] "/home/u" echo sh [] 0.



End Samples.

(** * Properties *)

Open Scope nat_scope.
Open Scope list_scope.
(** ** Facts about the string operations *)

Section StringFacts.
Import PyStr.

Lemma split_nil_blank s : split s = [] ↔ blank s = true.
Proof.
  induction s as [|c s IH]; simpl; [done|].
  destruct (isspace c) eqn:Hc; simpl; [done|].
  split; [|done].
  destruct s as [|c' s']; [done|].
  destruct (isspace c'); [done|].
  by destruct (split (String c' s')).
Qed.

Lemma blank_startswith s p : blank s = true → startswith s p = true → blank p = true.
Proof.
  revert p. induction s as [|c s IH]; intros [|a p]; simpl; try done.
  intros [Hc Hs]%andb_prop. case_decide; [|done]. subst a.
  intros Hp. rewrite Hc. simpl. by apply IH.
Qed.

(** A line that contains a phrase with a visible character is not blank. *)
Lemma str_in_not_blank p s : blank p = false → str_in p s = true → blank s = false.
Proof.
  intros Hp. induction s as [|c s IH]; simpl.
  - destruct p; [done|]. simpl. done.
  - intros [H|H]%orb_prop.
    + destruct (isspace c && blank s) eqn:Hb; [|done].
      assert (blank (String c s) = true) as Hb' by done.
      pose proof (blank_startswith (String c s) p Hb' H). congruence.
    + rewrite (IH H). by rewrite andb_false_r.
Qed.

Lemma isspace_lower_char c : isspace (lower_char c) = isspace c.
Proof.
  unfold lower_char.
  destruct ((65 <=? nat_of_ascii c)%nat && (nat_of_ascii c <=? 90)%nat) eqn:H; [|done].
  apply andb_prop in H as [H1 H2].
  apply Nat.leb_le in H1. apply Nat.leb_le in H2.
  unfold isspace. rewrite nat_ascii_embedding by lia.
  repeat match goal with
         | |- context [(?a <=? ?b)%nat] =>
             let E := fresh in
             destruct (Nat.leb_spec a b) as [E|E]; try lia
         end; done.
Qed.

Lemma blank_lower s : blank (lower s) = blank s.
Proof.
  induction s as [|c s IH]; simpl; [done|].
  by rewrite isspace_lower_char, IH.
Qed.

Lemma blank_lstrip s : blank (lstrip s) = blank s.
Proof.
  induction s as [|c s IH]; simpl; [done|].
  destruct (isspace c) eqn:Hc; simpl; [done|]. by rewrite Hc.
Qed.

Lemma blank_rstrip s : blank (rstrip s) = blank s.
Proof.
  induction s as [|c s IH]; simpl; [done|].
  destruct (rstrip s) as [|c' r] eqn:Hr.
  - simpl in IH. rewrite <- IH. destruct (isspace c) eqn:Hc; simpl; [done|]. by rewrite Hc.
  - rewrite <- IH. done.
Qed.

Lemma blank_strip s : blank (strip s) = blank s.
Proof. unfold strip. by rewrite blank_rstrip, blank_lstrip. Qed.

(** A line with a natural-language phrase in it has at least one word. *)
Lemma phrase_has_word command :
  any_in Shared.natural_language_patterns (lower command) = true →
  split (strip command) ≠ [].
Proof.
  intros H Hs. apply split_nil_blank in Hs. rewrite blank_strip in Hs.
  rewrite <- blank_lower in Hs.
  unfold any_in in H. apply existsb_exists in H as (p & Hp & Hin).
  assert (blank p = false) as Hb.
  { unfold Shared.natural_language_patterns in Hp. simpl in Hp.
    repeat (destruct Hp as [<-|Hp]; [by vm_compute|]). done. }
  pose proof (str_in_not_blank _ _ Hb Hin). congruence.
Qed.

End StringFacts.

(** ** Reasoning about computations *)

Section Framing.
Import Py Shared Logic.
Context {W : Type} {sys : Sys W}.
Variable R : state W → state W → Prop.
Hypothesis R_refl : ∀ s, R s s.
Hypothesis R_trans : ∀ s1 s2 s3, R s1 s2 → R s2 s3 → R s1 s3.
Hypothesis R_world : ∀ s w, R s (State w (trace s) (session s) (command_history s)).
Hypothesis R_session :
  ∀ s sid, R s (State (world s) (trace s) (Some sid) (command_history s)).

Lemma frame_ret {A} (a : A) : frame R (mret a : M W A).
Proof. intros s. apply R_refl. Qed.

Lemma frame_raise {A} e : frame R (raise e : M W A).
Proof. intros s. apply R_refl. Qed.

Lemma frame_out_of_fuel {A} : frame R (out_of_fuel : M W A).
Proof. intros s. apply R_refl. Qed.

Lemma frame_bind {A B} (m : M W A) (k : A → M W B) :
  frame R m → (∀ a, frame R (k a)) → frame R (m ≫= k).
Proof.
  intros Hm Hk s. specialize (Hm s). unfold mbind, M_bind.
  destruct (m s) as [[a|e|] s']; simpl in *; [|done..].
  eapply R_trans; [exact Hm|apply Hk].
Qed.

Lemma frame_try {A} (m : M W A) (h : exn → M W A) :
  frame R m → (∀ e, frame R (h e)) → frame R (try_except m h).
Proof.
  intros Hm Hh s. specialize (Hm s). unfold try_except.
  destruct (m s) as [[a|e|] s']; simpl in *; [done| |done].
  eapply R_trans; [exact Hm|apply Hh].
Qed.

Lemma frame_call {A} (f : W → answer A * W) : frame R (call f).
Proof.
  intros s. unfold call. destruct (f (world s)) as [[a|e] w]; apply R_world.
Qed.

Lemma frame_query {A} (f : W → A) : frame R (query f).
Proof. intros s. apply R_refl. Qed.

Lemma frame_draw {A} (f : W → A * W) : frame R (draw f).
Proof. intros s. unfold draw. destruct (f (world s)). apply R_world. Qed.

Lemma frame_emit ev :
  (∀ s, R s (State (world s) (trace s ++ [ev]) (session s) (command_history s))) →
  frame R (emit ev : M W ()).
Proof. intros H s. apply H. Qed.

Lemma frame_get_session : frame R (get_session : M W _).
Proof. intros s. apply R_refl. Qed.

Lemma frame_set_session sid : frame R (set_session sid : M W _).
Proof. intros s. apply R_session. Qed.

Lemma frame_get_command_history : frame R (get_command_history : M W _).
Proof. intros s. apply R_refl. Qed.

Lemma frame_for_each {A B} (f : A → M W B) l :
  (∀ x, frame R (f x)) → frame R (for_each f l).
Proof.
  intros Hf. induction l as [|x l IH]; simpl; [apply frame_ret|].
  apply frame_bind; [done|]. intros y.
  apply frame_bind; [done|]. intros ys. apply frame_ret.
Qed.

Lemma frame_app_get_session_id : frame R (App.get_session_id).
Proof.
  unfold App.get_session_id. apply frame_bind; [apply frame_get_session|].
  intros [sid|]; [apply frame_ret|].
  apply frame_bind; [apply frame_draw|]. intros sid.
  apply frame_bind; [apply frame_set_session|]. intros _. apply frame_ret.
Qed.

End Framing.

Section Ending.
Import Py Shared Logic.
Context {W : Type} {sys : Sys W}.


























End Ending.

Create HintDb handlers.

#[export] Hint Unfold
  App._handle_pwd App._handle_ls App.ls_line App._handle_cd_robust
  App._handle_mkdir_robust App._handle_rm_robust App._handle_cat_robust
  App._handle_cpu App._handle_memory App._handle_processes App._handle_help
  App._handle_developer_info App._handle_clear App._handle_history
  App.get_session_id App.interpret_natural_language App._handle_ai_command
  App._handle_external_command
  Terminal._handle_pwd Terminal._handle_ls Terminal.ls_line
  Terminal._handle_cd_robust Terminal._handle_mkdir_robust
  Terminal._handle_rm_robust Terminal._handle_cat_robust Terminal._handle_cpu
  Terminal._handle_memory Terminal._handle_processes Terminal._handle_help
  Terminal._handle_developer_info Terminal.interpret_natural_language
  Terminal._handle_ai_command Terminal._handle_external_command
  Terminal.print Terminal.print_noend Terminal.print_header : handlers.

(** Break a computation down to the primitives. *)
Ltac frame_steps :=
  repeat first
    [ assumption
    | apply frame_ret | apply frame_raise | apply frame_out_of_fuel
    | apply frame_call | apply frame_query | apply frame_draw
    | apply frame_get_session | apply frame_set_session
    | apply frame_get_command_history
    | apply frame_emit; solve [auto]
    | apply frame_bind; [assumption| |intros ?]
    | apply frame_try; [assumption| |intros ?]
    | apply frame_for_each; [assumption|assumption|intros ?]
    | match goal with
      | H : ∀ c, Logic.frame _ (?f c) |- Logic.frame _ (?f _) => apply H
      | |- Logic.frame _ (match ?x with _ => _ end) => destruct x
      end ].



(** Walk the [if]/[elif] chain of [native], running [t] in each branch
    that names a builtin. *)
Ltac chain t :=
  repeat match goal with
    | |- _ (if decide (?a = ?b) then _ else _) => destruct (decide (a = b)); [t|]
    | |- _ (if PyStr.elem ?a ?l then _ else _) =>
        let E := fresh "E" in destruct (PyStr.elem a l) eqn:E; [t|]
    end.

(** The last branch of the chain is not reached on a word of the registry. *)
Ltac off_registry H :=
  exfalso; unfold Logic.app_registry, Logic.terminal_registry in H;
  repeat (apply elem_of_cons in H as [->|H];
          [first [ congruence
                 | match goal with
                   | E : PyStr.elem _ _ = false |- _ => vm_compute in E; discriminate E
                   end ] |]);
  by apply elem_of_nil in H.

Section Handlers.
Import PyStr Py Shared Logic.
Context {W : Type} {sys : Sys W}.

(** The builtins of [app.py] make no event and touch the session key
    only: they stay within any relation closed under that. *)
Lemma frame_app_builtin (R : state W → state W → Prop) cmd args command :
  (∀ s, R s s) →
  (∀ s1 s2 s3, R s1 s2 → R s2 s3 → R s1 s3) →
  (∀ s w, R s (State w (trace s) (session s) (command_history s))) →
  (∀ s sid, R s (State (world s) (trace s) (Some sid) (command_history s))) →
  cmd ∈ app_registry → frame R (App.native cmd args command).
Proof.
  intros R1 R2 R3 R4 Hcmd. unfold App.native.
  chain ltac:(autounfold with handlers; frame_steps).
  off_registry Hcmd.
Qed.

Lemma frame_terminal_builtin (R : state W → state W → Prop) cmd args command :
  (∀ s, R s s) →
  (∀ s1 s2 s3, R s1 s2 → R s2 s3 → R s1 s3) →
  (∀ s w, R s (State w (trace s) (session s) (command_history s))) →
  cmd ∈ terminal_registry → frame R (Terminal.native cmd args command).
Proof.
  intros R1 R2 R3 Hcmd. unfold Terminal.native.
  chain ltac:(autounfold with handlers; frame_steps).
  off_registry Hcmd.
Qed.

(** The whole dispatcher stays within a relation that, besides, lets
    every event through. *)
Lemma frame_app_run_command (R : state W → state W → Prop) fuel command :
  (∀ s, R s s) →
  (∀ s1 s2 s3, R s1 s2 → R s2 s3 → R s1 s3) →
  (∀ s w, R s (State w (trace s) (session s) (command_history s))) →
  (∀ s sid, R s (State (world s) (trace s) (Some sid) (command_history s))) →
  (∀ ev s, R s (State (world s) (trace s ++ [ev]) (session s) (command_history s))) →
  frame R (App.run_command fuel command).
Proof.
  intros R1 R2 R3 R4 R5. revert command.
  induction fuel as [|fuel IH]; intros command; simpl; [by apply frame_out_of_fuel|].
  destruct (split (strip command)) as [|part0 args]; [by apply frame_ret|].
  assert (frame R (App._handle_ai_command (App.run_command fuel) command)) as Hai.
  { autounfold with handlers. frame_steps. }
  repeat match goal with
         | |- frame _ (if ?b then _ else _) => destruct b; [exact Hai|]
         end.
  unfold App.native. chain ltac:(autounfold with handlers; frame_steps).
  autounfold with handlers; frame_steps.
Qed.

Lemma frame_terminal_run_command (R : state W → state W → Prop) fuel command :
  (∀ s, R s s) →
  (∀ s1 s2 s3, R s1 s2 → R s2 s3 → R s1 s3) →
  (∀ s w, R s (State w (trace s) (session s) (command_history s))) →
  (∀ ev s, R s (State (world s) (trace s ++ [ev]) (session s) (command_history s))) →
  frame R (Terminal.run_command fuel command).
Proof.
  intros R1 R2 R3 R5. revert command.
  induction fuel as [|fuel IH]; intros command; simpl; [by apply frame_out_of_fuel|].
  destruct (split (strip command)) as [|part0 args]; [by apply frame_ret|].
  assert (frame R (Terminal._handle_ai_command (Terminal.run_command fuel) command)) as Hai.
  { autounfold with handlers. frame_steps. }
  repeat match goal with
         | |- frame _ (if ?b then _ else _) => destruct b; [exact Hai|]
         end.
  unfold Terminal.native. chain ltac:(autounfold with handlers; frame_steps).
  autounfold with handlers; frame_steps.
Qed.







(** How [run_command] goes on, by [routes_to_ai]. *)
Lemma app_run_command_ai fuel command s :
  routes_to_ai AI_ENABLED command = true →
  App.run_command (S fuel) command s
  = App._handle_ai_command (App.run_command fuel) command s.
Proof.
  unfold routes_to_ai. simpl.
  destruct (split (strip command)) as [|part0 args]; [done|].
  destruct (_ && _ && AI_ENABLED); [done|]. simpl.
  by intros ->.
Qed.

Lemma app_run_command_native fuel command s :
  routes_to_ai AI_ENABLED command = false →
  App.run_command (S fuel) command s
  = match split (strip command) with
    | [] => (Return (false, "", "Empty command"), s)
    | part0 :: args => App.native (lower part0) args command s
    end.
Proof.
  unfold routes_to_ai. simpl.
  destruct (split (strip command)) as [|part0 args]; [done|].
  destruct (_ && _ && AI_ENABLED); [done|]. simpl.
  by intros ->.
Qed.

Lemma terminal_run_command_ai fuel command s :
  routes_to_ai AI_ENABLED command = true →
  Terminal.run_command (S fuel) command s
  = Terminal._handle_ai_command (Terminal.run_command fuel) command s.
Proof.
  unfold routes_to_ai. simpl.
  destruct (split (strip command)) as [|part0 args]; [done|].
  destruct (_ && _ && AI_ENABLED); [done|]. simpl.
  by intros ->.
Qed.

Lemma terminal_run_command_native fuel command s :
  routes_to_ai AI_ENABLED command = false →
  Terminal.run_command (S fuel) command s
  = match split (strip command) with
    | [] => (Return (false, "", "Empty command"), s)
    | part0 :: args => Terminal.native (lower part0) args command s
    end.
Proof.
  unfold routes_to_ai. simpl.
  destruct (split (strip command)) as [|part0 args]; [done|].
  destruct (_ && _ && AI_ENABLED); [done|]. simpl.
  by intros ->.
Qed.



End Handlers.

(** ** The two relations on states *)

Section Relations.
Import Py Logic.
Context {W : Type}.

Lemma grows_refl P (s : state W) : grows P s s.
Proof. exists []. by rewrite app_nil_r. Qed.

Lemma grows_trans P (s1 s2 s3 : state W) : grows P s1 s2 → grows P s2 s3 → grows P s1 s3.
Proof.
  intros (t1 & H1 & F1) (t2 & H2 & F2). exists (t1 ++ t2). split.
  - by rewrite H2, H1, app_assoc.
  - by apply Forall_app.
Qed.

Lemma grows_world P (s : state W) w :
  grows P s (State w (trace s) (session s) (command_history s)).
Proof. exists []. by rewrite app_nil_r. Qed.

Lemma grows_session P (s : state W) sid :
  grows P s (State (world s) (trace s) (Some sid) (command_history s)).
Proof. exists []. by rewrite app_nil_r. Qed.

Lemma grows_emit (P : event → Prop) ev (s : state W) :
  P ev → grows P s (State (world s) (trace s ++ [ev]) (session s) (command_history s)).
Proof. intros H. exists [ev]. split; [done|]. by apply Forall_singleton. Qed.

Lemma same_history_trans (s1 s2 s3 : state W) :
  same_history s1 s2 → same_history s2 s3 → same_history s1 s3.
Proof. unfold same_history. congruence. Qed.

End Relations.

(** ** The dispatcher *)

Section Dispatch.
Import PyStr Py Shared Logic.
Context {W : Type} {sys : Sys W}.

Lemma bind_eq {A B} (m m' : M W A) (k : A → M W B) s s' :
  m s = m' s' → (m ≫= k) s = (m' ≫= k) s'.
Proof. intros H. unfold mbind, M_bind. by rewrite H. Qed.

(** An event made first in a [try] block is made before the block. *)
Lemma try_emit {A} ev (body : M W A) h s :
  try_except (emit ev ≫= λ _, body) h s
  = try_except body h
      (State (world s) (trace s ++ [ev]) (session s) (command_history s)).
Proof. reflexivity. Qed.

(** What [run_command] leaves in the trace, it has appended. *)
Lemma app_run_command_grows fuel command :
  frame (grows (λ _, True)) (App.run_command fuel command).
Proof.
  apply frame_app_run_command;
    eauto using grows_refl, grows_trans, grows_world, grows_session, grows_emit.
Qed.

Lemma terminal_run_command_grows fuel command :
  frame (grows (λ _, True)) (Terminal.run_command fuel command).
Proof.
  apply frame_terminal_run_command;
    eauto using grows_refl, grows_trans, grows_world, grows_session, grows_emit.
Qed.

(** [run_command] does not write to the ledger, at any depth. *)
Lemma app_run_command_same_history fuel command :
  frame same_history (App.run_command fuel command).
Proof.
  apply frame_app_run_command; try done. apply same_history_trans.
Qed.

(** With the key set, [_handle_ai_command] starts by calling the
    translator on the line as it is. *)
Lemma app_ai_calls_translator fuel command s :
  AI_ENABLED = true →
  ∃ t, trace (App._handle_ai_command (App.run_command fuel) command s).2
       = (trace s ++ EvTranslate command :: t).
Proof.
  intros Hai.
  set (s0 := State (world s) (trace s ++ [EvTranslate command]) (session s)
               (command_history s)).
  assert (∃ m : M W CommandResult,
            frame (grows (λ _, True)) m ∧
            App._handle_ai_command (App.run_command fuel) command s = m s0)
    as (m & Hm & ->).
  { unfold App._handle_ai_command, App.interpret_natural_language. rewrite Hai.
    simpl negb. cbv iota.
    eexists (try_except _ _ ≫= _). split; [|apply bind_eq, try_emit].
    pose proof (app_run_command_grows fuel) as Hrun.
    pose proof (@grows_refl W (λ _, True)) as R1.
    pose proof (@grows_trans W (λ _, True)) as R2.
    pose proof (@grows_world W (λ _, True)) as R3.
    frame_steps. }
  destruct (Hm s0) as (t & Ht & _). exists t. rewrite Ht. simpl.
  by rewrite <- app_assoc.
Qed.

Lemma terminal_ai_calls_translator fuel command s :
  AI_ENABLED = true →
  ∃ t, trace (Terminal._handle_ai_command (Terminal.run_command fuel) command s).2
       = (trace s ++ EvTranslate command :: t).
Proof.
  intros Hai.
  set (s0 := State (world s) (trace s ++ [EvTranslate command]) (session s)
               (command_history s)).
  assert (∃ m : M W CommandResult,
            frame (grows (λ _, True)) m ∧
            Terminal._handle_ai_command (Terminal.run_command fuel) command s = m s0)
    as (m & Hm & ->).
  { unfold Terminal._handle_ai_command, Terminal.interpret_natural_language.
    rewrite Hai. simpl negb. cbv iota.
    eexists (try_except _ _ ≫= _). split; [|apply bind_eq, try_emit].
    pose proof (terminal_run_command_grows fuel) as Hrun.
    pose proof (@grows_refl W (λ _, True)) as R1.
    pose proof (@grows_trans W (λ _, True)) as R2.
    pose proof (@grows_world W (λ _, True)) as R3.
    pose proof (λ ev s, @grows_emit W (λ _, True) ev s I) as R5.
    autounfold with handlers. frame_steps. }
  destruct (Hm s0) as (t & Ht & _). exists t. rewrite Ht. simpl.
  by rewrite <- app_assoc.
Qed.

Lemma phrase_routes_to_ai command :
  AI_ENABLED = true →
  any_in natural_language_patterns (lower command) = true →
  routes_to_ai AI_ENABLED command = true.
Proof.
  intros Hai Hp. unfold routes_to_ai.
  pose proof (phrase_has_word command Hp) as Hw.
  destruct (split (strip command)); [done|].
  rewrite Hp, Hai. by rewrite orb_true_r.
Qed.

End Dispatch.

(** C5.  A line whose lower-cased text contains one of the six phrases
    goes, when the translator is enabled, to [_handle_ai_command], which
    calls the translator on that very line: this holds in [app.py] and in
    [terminal.py], whatever the number of words and whatever the first
    word, and the first thing the dispatcher does is that call. *)
Theorem phrase_goes_to_translator {W : Type} {sys : Py.Sys W}
    (fuel : nat) (command : string) (s : Py.state W) :
  Py.AI_ENABLED = true →
  PyStr.any_in Shared.natural_language_patterns (PyStr.lower command) = true →
  (App.run_command (S fuel) command s
     = App._handle_ai_command (App.run_command fuel) command s
   ∧ ∃ t, Py.trace (App.run_command (S fuel) command s).2
          = (Py.trace s ++ Py.EvTranslate command :: t))
  ∧ (Terminal.run_command (S fuel) command s
       = Terminal._handle_ai_command (Terminal.run_command fuel) command s
     ∧ ∃ t, Py.trace (Terminal.run_command (S fuel) command s).2
            = (Py.trace s ++ Py.EvTranslate command :: t)).
Proof.
  intros Hai Hp. pose proof (phrase_routes_to_ai command Hai Hp) as Hr.
  split; split.
  - by apply app_run_command_ai.
  - rewrite app_run_command_ai by done. by apply app_ai_calls_translator.
  - by apply terminal_run_command_ai.
  - rewrite terminal_run_command_ai by done. by apply terminal_ai_calls_translator.
Qed.

(** The line [ls show me] has a builtin as its first word and three
    words; [what is] has two. *)
Lemma phrase_goes_to_translator_witness :
  (∃ t, Py.trace (App.run_command (sys := SimOS.sim_sys true) 3 "ls show me"
                    (SimOS.boot Samples.world0)).2
        = Py.EvTranslate "ls show me" :: t)
  ∧ (∃ t, Py.trace (Terminal.run_command (sys := SimOS.sim_sys true) 3 "what is"
                      (SimOS.boot Samples.world0)).2
          = Py.EvTranslate "what is" :: t).
Proof.
  split.
  - exact (proj2 (proj1 (phrase_goes_to_translator (sys := SimOS.sim_sys true) 2
                           "ls show me" (SimOS.boot Samples.world0) eq_refl eq_refl))).
  - exact (proj2 (proj2 (phrase_goes_to_translator (sys := SimOS.sim_sys true) 2
                           "what is" (SimOS.boot Samples.world0) eq_refl eq_refl))).
Defined.

(** ** Builtin lines *)

(** Settle [w ∈ l] for a word [w] that [H] puts in a list of literals. *)
Ltac member H :=
  repeat (let E := fresh "E" in
          apply elem_of_cons in H as [E|H];
          [first [ congruence
                 | rewrite E; by apply (bool_decide_unpack _); vm_compute ] |]);
  by apply elem_of_nil in H.

Section BuiltinLines.
Import PyStr Py Shared Logic.
Context {W : Type} {sys : Sys W}.

(** A line of at most two words, the first a reserved word, with no
    phrase in it, does not go to the translator. *)
Lemma short_reserved_not_ai command part0 args :
  split (strip command) = part0 :: args →
  length (part0 :: args) ≤ 2 →
  any_in natural_language_patterns (lower command) = false →
  routes_to_ai AI_ENABLED command = false.
Proof.
  intros Hs Hl Hp. unfold routes_to_ai. rewrite Hs, Hp.
  destruct (Nat.ltb_spec 2 (length (part0 :: args))); [lia|done].
Qed.

(** In [app.py] such a line runs the builtin and nothing else: the
    trace is left as it was. *)
Lemma app_builtin_line fuel command part0 args s :
  split (strip command) = part0 :: args →
  lower part0 ∈ native_commands →
  length (part0 :: args) ≤ 2 →
  any_in natural_language_patterns (lower command) = false →
  App.run_command (S fuel) command s = App.native (lower part0) args command s
  ∧ trace (App.run_command (S fuel) command s).2 = trace s.
Proof.
  intros Hs Hw Hl Hp.
  rewrite app_run_command_native by eauto using short_reserved_not_ai.
  rewrite Hs. split; [done|].
  apply (frame_app_builtin (λ s s', trace s' = trace s)); try done.
  - congruence.
  - unfold native_commands in Hw. unfold app_registry. member Hw.
Qed.

(** So does it in [terminal.py], unless the word is [clear]. *)
Lemma terminal_builtin_line fuel command part0 args s :
  split (strip command) = part0 :: args →
  lower part0 ∈ native_commands →
  lower part0 ≠ "clear" →
  length (part0 :: args) ≤ 2 →
  any_in natural_language_patterns (lower command) = false →
  Terminal.run_command (S fuel) command s = Terminal.native (lower part0) args command s
  ∧ trace (Terminal.run_command (S fuel) command s).2 = trace s.
Proof.
  intros Hs Hw Hc Hl Hp.
  rewrite terminal_run_command_native by eauto using short_reserved_not_ai.
  rewrite Hs. split; [done|].
  apply (frame_terminal_builtin (λ s s', trace s' = trace s)); try done.
  - congruence.
  - unfold native_commands in Hw. unfold terminal_registry. member Hw.
Qed.

(** The external process adapter records its call, whatever comes of it. *)
Lemma terminal_external_trace command s :
  trace (Terminal._handle_external_command command s).2
  = trace s ++ [EvExternal command].
Proof.
  unfold Terminal._handle_external_command. rewrite try_emit.
  unfold try_except, mbind, M_bind, call. simpl.
  destruct (subprocess_run command (world s)) as [[[[rc out] err]|e] w]; simpl.
  - by destruct (decide (rc = 0%Z)).
  - by destruct (exn_kind_of e).
Qed.

Lemma grows_elem P (s s' : state W) ev : grows P s s' → ev ∈ trace s → ev ∈ trace s'.
Proof. intros (t & -> & _) H. apply elem_of_app. by left. Qed.

(** An event made by the head of a [try] block is in the trace after it,
    when the rest of the block and the handler only append. *)
Lemma try_bind_elem {A B} (m : M W A) (k : A → M W B) h s ev :
  (∀ a, frame (grows (λ _, True)) (try_except (k a) h)) →
  (∀ e, frame (grows (λ _, True)) (h e)) →
  ev ∈ trace (m s).2 → ev ∈ trace (try_except (m ≫= k) h s).2.
Proof.
  intros Hk Hh Hev. unfold try_except at 1. unfold mbind, M_bind.
  destruct (m s) as [[a|e|] s1] eqn:Hm; simpl in *; [|by eapply grows_elem; [apply Hh|]|done].
  specialize (Hk a s1). unfold try_except in Hk.
  eapply grows_elem; [|exact Hev].
  destruct (k a s1) as [[b|e|] s2]; simpl in *; done.
Qed.

End BuiltinLines.

(** C6, at the line [clear x] in [terminal.py].  The word [clear] is in
    the reserved list of [run_command], the line has two words and no
    phrase, and yet [run_command] hands it to the external process
    adapter, with the translator enabled or not: its chain of branches has
    none for [clear].  The loop of [main] lets the line through, as it
    keeps for itself only the line that is exactly [clear]. *)
Theorem terminal_clear_goes_external {W : Type} {sys : Py.Sys W}
    (fuel : nat) (s : Py.state W) :
  PyStr.split (PyStr.strip "clear x") = ["clear"; "x"]
  ∧ PyStr.elem "clear" Shared.native_commands = true
  ∧ PyStr.any_in Shared.natural_language_patterns (PyStr.lower "clear x") = false
  ∧ Terminal.run_command (S fuel) "clear x" s
    = Terminal._handle_external_command "clear x" s
  ∧ Py.trace (Terminal.run_command (S fuel) "clear x" s).2
    = Py.trace s ++ [Py.EvExternal "clear x"]
  ∧ Py.EvExternal "clear x" ∈ Py.trace (Terminal.main_step (S fuel) "clear x" s).2.
Proof.
  assert (Terminal.run_command (S fuel) "clear x" s
          = Terminal._handle_external_command "clear x" s) as Hrun by reflexivity.
  split_and!; try done.
  - rewrite Hrun. apply terminal_external_trace.
  - unfold Terminal.main_step.
    destruct (decide ("clear x" = "")) as [E|_]; [discriminate E|].
    destruct (PyStr.elem (PyStr.lower "clear x") ["exit"; "quit"; "q"]) eqn:E;
      [vm_compute in E; discriminate E|clear E].
    destruct (decide (PyStr.lower "clear x" = "clear")) as [E|_];
      [vm_compute in E; discriminate E|].
    pose proof (@grows_refl W (λ _, True)) as R1.
    pose proof (@grows_trans W (λ _, True)) as R2.
    pose proof (@grows_world W (λ _, True)) as R3.
    pose proof (λ ev s, @grows_emit W (λ _, True) ev s I) as R5.
    apply try_bind_elem.
    + intros [[success output] error]. autounfold with handlers. frame_steps.
    + intros e. autounfold with handlers. frame_steps.
    + rewrite Hrun, terminal_external_trace. apply elem_of_app. right. by left.
Qed.

(** ** Re-entry *)

Section Reentry.
Import PyStr Py Shared Logic.
Context {W : Type} {sys : Sys W}.








(** After a translation that gives the line [content], [app.py] runs the
    dispatcher on [content.strip()]. *)
Lemma app_ai_redispatch (run : string → M W CommandResult) command content w' s :
  AI_ENABLED = true →
  openai_chat_completion command (world s) = (Ok content, w') →
  strip content ≠ "" →
  App._handle_ai_command run command s
  = run (strip content)
      (State w' (trace s ++ [EvTranslate command]) (session s) (command_history s)).
Proof.
  intros Hai Hc Hne. unfold App._handle_ai_command, App.interpret_natural_language.
  rewrite Hai. simpl negb. cbv iota.
  unfold mbind, M_bind, try_except, emit, call. simpl. rewrite Hc.
  destruct (decide (strip content = "")); [done|]. simpl.
  by destruct (decide (strip content = "")).
Qed.

(** [terminal.py] prints the suggestion first. *)
Lemma terminal_ai_redispatch (run : string → M W CommandResult) command content w' s :
  AI_ENABLED = true →
  openai_chat_completion command (world s) = (Ok content, w') →
  strip content ≠ "" →
  Terminal._handle_ai_command run command s
  = run (strip content)
      (State w'
         (trace s ++
          [EvTranslate command;
           EvPrint ((Terminal.Fore.CYAN +:+ "AI Suggestion: " +:+ strip content
                       +:+ Terminal.Style.RESET_ALL) +:+ nl);
           EvPrint ((Terminal.Fore.YELLOW +:+ "Explanation: "
                       +:+ ("AI converted: '" +:+ command +:+ "' to terminal command")
                       +:+ Terminal.Style.RESET_ALL) +:+ nl);
           EvPrint nl])
         (session s) (command_history s)).
Proof.
  intros Hai Hc Hne.
  unfold Terminal._handle_ai_command, Terminal.interpret_natural_language.
  rewrite Hai. simpl negb. cbv iota.
  unfold mbind, M_bind, try_except, emit, call, Terminal.print. simpl. rewrite Hc.
  destruct (decide (strip content = "")); [done|]. simpl.
  destruct (decide (strip content = "")); [done|].
  unfold emit. simpl. rewrite <- !app_assoc. reflexivity.
Qed.

End Reentry.




(** With a translator that gives the instruction back, no depth is
    enough: the dispatch of [show me] never returns. *)
Lemma echo_never_returns (fuel : nat) :
  (App.run_command (sys := SimOS.sim_sys true) fuel "show me"
     (SimOS.boot Samples.world_echo)).1 = Py.OutOfFuel
  ∧ (Terminal.run_command (sys := SimOS.sim_sys true) fuel "show me"
       (SimOS.boot Samples.world_echo)).1 = Py.OutOfFuel.
Proof.
  assert (PyStr.strip "show me" ≠ "") as Hne by (by vm_compute).
  split.
  - assert (∀ s, Py.world s = Samples.world_echo →
              (App.run_command (sys := SimOS.sim_sys true) fuel "show me" s).1
              = Py.OutOfFuel) as H; [|by apply H].
    induction fuel as [|fuel IH]; intros s Hw; [done|].
    rewrite (app_run_command_ai (sys := SimOS.sim_sys true)) by by vm_compute.
    rewrite (app_ai_redispatch (sys := SimOS.sim_sys true) _ "show me" "show me"
               Samples.world_echo); [| done | by simpl; rewrite Hw | done].
    by apply IH.
  - assert (∀ s, Py.world s = Samples.world_echo →
              (Terminal.run_command (sys := SimOS.sim_sys true) fuel "show me" s).1
              = Py.OutOfFuel) as H; [|by apply H].
    induction fuel as [|fuel IH]; intros s Hw; [done|].
    rewrite (terminal_run_command_ai (sys := SimOS.sim_sys true)) by by vm_compute.
    rewrite (terminal_ai_redispatch (sys := SimOS.sim_sys true) _ "show me" "show me"
               Samples.world_echo); [| done | by simpl; rewrite Hw | done].
    by apply IH.
Qed.

(** ** The ledger *)

Section Ledger.
Import PyStr Py Shared Logic.
Context {W : Type} {sys : Sys W}.

(** What [add_to_history] leaves: one entry more under the session's
    key, stamped with the time of the call. *)
Lemma add_to_history_spec session_id command output success (s : state W) :
  App.add_to_history session_id command output success s
  = (Return (),
     State (now_isoformat (world s)).2 (trace s) (session s)
       (<[session_id :=
            default [] (command_history s !! session_id)
            ++ [Entry (now_isoformat (world s)).1 command output success]]>
          (command_history s))).
Proof.
  unfold App.add_to_history, mbind, M_bind, get_command_history, draw,
    set_command_history. simpl.
  destruct (now_isoformat (world s)) as [now w]. simpl. do 2 f_equal.
  destruct (command_history s !! session_id) as [l|] eqn:Hl.
  - by rewrite Hl.
  - rewrite lookup_insert_eq. simpl. by rewrite insert_insert_eq.
Qed.

Lemma get_history_spec session_id (s : state W) :
  session s = Some session_id →
  App.get_history s
  = (Return [("history", App.JEntries (default [] (command_history s !! session_id)))], s).
Proof.
  intros Hs. unfold App.get_history, App.get_session_id, try_except, mbind, M_bind,
    get_session, get_command_history. simpl. by rewrite Hs.
Qed.

End Ledger.

(** C8.  Appending an entry for a session with [add_to_history] and then
    reading the history of the same session with [get_history] gives the
    entries the session had, in their order, followed by the entry just
    appended: it is the last one. *)
Theorem history_round_trip {W : Type} {sys : Py.Sys W}
    (session_id command output : string) (success : bool) (s : Py.state W) :
  Py.session s = Some session_id →
  let s1 := (App.add_to_history session_id command output success s).2 in
  let entry := Py.Entry (Py.now_isoformat (Py.world s)).1 command output success in
  let before := default [] (Py.command_history s !! session_id) in
  App.get_history s1 = (Py.Return [("history", App.JEntries (before ++ [entry]))], s1)
  ∧ last (before ++ [entry]) = Some entry.
Proof.
  intros Hs s1 entry before. split; [|apply last_snoc].
  subst s1. rewrite add_to_history_spec. simpl.
  rewrite (get_history_spec session_id) by done. simpl.
  by rewrite lookup_insert_eq.
Qed.

(** A session that has dispatched [pwd] dispatches [ls]. *)
Lemma history_round_trip_witness :
  let s := Py.State Samples.world0 [] (Some "k")
             {["k" := [Py.Entry "T0" "pwd" "/home/u" true]]} in
  App.get_history (sys := SimOS.sim_sys false)
    (App.add_to_history (sys := SimOS.sim_sys false) "k" "ls" "" true s).2
  = (Py.Return
       [("history",
         App.JEntries [Py.Entry "T0" "pwd" "/home/u" true; Py.Entry "T0" "ls" "" true])],
     (App.add_to_history (sys := SimOS.sim_sys false) "k" "ls" "" true s).2).
Proof.
  intros s.
  exact (proj1 (history_round_trip (sys := SimOS.sim_sys false) "k" "ls" "" true s eq_refl)).
Defined.

(** C4, as amended.  Every line that reaches the dispatcher through
    [execute_command] (not empty once stripped, not [exit], [quit] or [q])
    and whose dispatch returns is recorded, whether the dispatch succeeded
    or failed: [execute_command] appends exactly one entry to the ledger of
    the session, after the outermost [run_command] has returned;
    [run_command] itself, re-entered or not, leaves the ledger as it was.
    The entry holds the posted line stripped of surrounding white space
    (not the translated command), the output and the success flag of the
    dispatch. *)
Theorem every_dispatch_is_recorded {W : Type} {sys : Py.Sys W}
    (fuel : nat) (posted : string) (s s1 : Py.state W)
    (success : bool) (output error : string) :
  let command := PyStr.strip posted in
  command ≠ "" →
  PyStr.elem (PyStr.lower command) ["exit"; "quit"; "q"] = false →
  App.run_command fuel command s = (Py.Return (success, output, error), s1) →
  Py.command_history s1 = Py.command_history s
  ∧ ∃ response session_id now s2,
      App.execute_command fuel posted s = (Py.Return response, s2)
      ∧ Py.session s2 = Some session_id
      ∧ (∀ k, Py.session s1 = Some k → session_id = k)
      ∧ Py.command_history s2
        = <[session_id :=
              default [] (Py.command_history s !! session_id)
              ++ [Py.Entry now command output success]]>
            (Py.command_history s).
Proof.
  intros command Hne Hexit Hrun.
  assert (Py.command_history s1 = Py.command_history s) as Hh.
  { pose proof (app_run_command_same_history fuel command s) as H.
    unfold Logic.same_history in H. by rewrite Hrun in H. }
  split; [done|].
  unfold App.execute_command. fold command.
  destruct (decide (command = "")) as [|_]; [done|]. rewrite Hexit.
  unfold Py.try_except at 1. unfold mbind at 1. unfold Py.M_bind at 1.
  rewrite Hrun.
  assert (∃ session_id s1',
            App.get_session_id s1 = (Py.Return session_id, s1')
            ∧ Py.session s1' = Some session_id
            ∧ (∀ k, Py.session s1 = Some k → session_id = k)
            ∧ Py.command_history s1' = Py.command_history s1)
    as (session_id & s1' & Hsid & Hs1' & Hk & Hh').
  { unfold App.get_session_id, mbind, Py.M_bind, Py.get_session, Py.draw,
      Py.set_session. simpl.
    destruct (Py.session s1) as [k|] eqn:Hk.
    - exists k, s1. split_and!; try done. by intros ? [= ->].
    - destruct (Py.uuid4 (Py.world s1)) as [u w]. simpl.
      eexists _, _. split_and!; [reflexivity|done|done|done]. }
  unfold mbind at 1. unfold Py.M_bind at 1. rewrite Hsid.
  unfold mbind at 1. unfold Py.M_bind at 1. rewrite add_to_history_spec.
  rewrite Hh', Hh.
  set (h2 := <[session_id := _]> (Py.command_history s)).
  set (s2 := Py.State _ _ _ h2).
  assert (Py.session s2 = Some session_id) as Hs2 by done.
  destruct (decide (output = "CLEAR_SCREEN")).
  { eexists _, session_id, _, s2. split_and!; [reflexivity|done|done|reflexivity]. }
  unfold mbind, Py.M_bind, Py.call.
  destruct (Py.os_getcwd (Py.world s2)) as [[current_dir|e] w] eqn:Hcwd; simpl.
  - eexists _, session_id, _, _. split_and!; [reflexivity|done|done|reflexivity].
  - eexists _, session_id, _, _. split_and!; [reflexivity|done|done|reflexivity].
Qed.

(** [  show me a  ] is recorded as [show me a], with the output of the
    [ls] it ends in. *)
Lemma every_dispatch_is_recorded_witness :
  ∃ response session_id now s2,
    App.execute_command (sys := SimOS.sim_sys true) 3 "  show me a  "
      (SimOS.boot Samples.world0) = (Py.Return response, s2)
    ∧ Py.session s2 = Some session_id
    ∧ (∀ k, Py.session
              (App.run_command (sys := SimOS.sim_sys true) 3 "show me a"
                 (SimOS.boot Samples.world0)).2 = Some k → session_id = k)
    ∧ Py.command_history s2
      = <[session_id :=
            default [] ((∅ : gmap string (list Py.HistoryEntry)) !! session_id)
            ++ [Py.Entry now "show me a"
                  ("📄 b.txt (1B)" +:+ Shared.nl +:+ "📁 demo/" +:+ Shared.nl
                     +:+ "📄 notes.txt (5B)") true]]> ∅.
Proof.
  assert (PyStr.strip "  show me a  " ≠ "") as Hne by (by vm_compute).
  exact (proj2 (every_dispatch_is_recorded (sys := SimOS.sim_sys true) 3
                  "  show me a  " (SimOS.boot Samples.world0)
                  (App.run_command (sys := SimOS.sim_sys true) 3 "show me a"
                     (SimOS.boot Samples.world0)).2
                  true _ "" Hne eq_refl eq_refl)).
Defined.

(** C4, as stated, fails.  [cd] without an argument is a dispatch that
    fails, and it is recorded all the same, with its flag. *)
Lemma failed_dispatch_is_recorded :
  (App.run_command (sys := SimOS.sim_sys false) 1 "cd" (SimOS.boot Samples.world0)).1
  = Py.Return (false, "", "cd: missing directory argument. Usage: cd <directory>")
  ∧ Py.command_history
      (App.execute_command (sys := SimOS.sim_sys false) 1 "cd"
         (SimOS.boot Samples.world0)).2
    = {["uuid-0" := [Py.Entry "T1" "cd" "" false]]}.
Proof. split; by vm_compute. Qed.

(** The empty line and the three leave-words do not reach the
    dispatcher, and nothing is recorded for them. *)
Lemma unrecorded_lines {W : Type} {sys : Py.Sys W} (fuel : nat) (posted : string)
    (s : Py.state W) :
  PyStr.strip posted = ""
  ∨ PyStr.elem (PyStr.lower (PyStr.strip posted)) ["exit"; "quit"; "q"] = true →
  (App.execute_command fuel posted s).2 = s.
Proof.
  intros H. unfold App.execute_command, Py.try_except.
  destruct (decide (PyStr.strip posted = "")) as [|Hne]; [done|].
  destruct H as [H|H]; [done|]. by rewrite H.
Qed.

(** ** Arguments after the first *)


(** A line of three words or more whose first word is one of the five
    reaches the builtin with all its arguments, also when the translator
    is enabled, as long as it holds no phrase. *)
Lemma long_builtin_line_stays_native {W : Type} {sys : Py.Sys W}
    (fuel : nat) (command part0 : string) (args : list string) (s : Py.state W) :
  PyStr.split (PyStr.strip command) = part0 :: args →
  PyStr.lower part0 ∈ ["ls"; "cd"; "mkdir"; "rm"; "cat"] →
  PyStr.any_in Shared.natural_language_patterns (PyStr.lower command) = false →
  App.run_command (S fuel) command s = App.native (PyStr.lower part0) args command s
  ∧ Terminal.run_command (S fuel) command s
    = Terminal.native (PyStr.lower part0) args command s.
Proof.
  intros Hs Hw Hp.
  assert (Logic.routes_to_ai Py.AI_ENABLED command = false) as Hr.
  { unfold Logic.routes_to_ai. rewrite Hs, Hp.
    assert (PyStr.elem (PyStr.lower part0) Shared.native_commands = true) as ->.
    { unfold PyStr.elem. apply bool_decide_eq_true. unfold Shared.native_commands.
      member Hw. }
    by rewrite andb_false_r. }
  rewrite app_run_command_native, terminal_run_command_native by done.
  by rewrite Hs.
Qed.

(** [rm notes.txt b.txt] removes [notes.txt], reports success, and
    leaves [b.txt] where it is. *)
Lemma rm_two_files_removes_first :
  let r := App.run_command (sys := SimOS.sim_sys true) 1 "rm notes.txt b.txt"
             (SimOS.boot Samples.world0) in
  r.1 = Py.Return (true, "Removed file: notes.txt", "")
  ∧ SimOS.lookup_path (Py.world r.2) "notes.txt" = None
  ∧ SimOS.lookup_path (Py.world r.2) "b.txt" = Some (SimOS.File "x")
  ∧ SimOS.lookup_path Samples.world0 "notes.txt" = Some (SimOS.File "hello")
  ∧ SimOS.lookup_path Samples.world0 "b.txt" = Some (SimOS.File "x").
Proof. split_and!; by vm_compute. Qed.

(** ** The directory tree *)

Section Tree.
Import PyStr Py Shared SimOS Logic.

Lemma walk_blank t path base comps :
  forallb (λ c, bool_decide (c = "")) comps = true → walk t path base comps = Ok base.
Proof.
  induction comps as [|c comps IH]; simpl; [done|].
  intros [Hc Hr]%andb_prop. apply bool_decide_eq_true in Hc.
  destruct (decide (c = "")); [by apply IH|done].
Qed.

(** No path with a name in it leads through what is not a directory. *)
Lemma walk_through_non_directory t path base comps p :
  node_at t base ≠ Some Dir →
  forallb (λ c, bool_decide (c = "")) comps = false →
  walk t path base comps ≠ Ok p.
Proof.
  intros Hb. induction comps as [|c comps IH]; simpl; [done|].
  destruct (decide (c = "")) as [->|Hc].
  - rewrite bool_decide_eq_true_2 by done. simpl. apply IH.
  - intros _. by destruct (node_at t base) as [[|?]|].
Qed.

(** [os.makedirs] on a path that names something there is: [EEXIST], and
    the tree is left as it was. *)
Lemma makedirs_existing t path comps base p n :
  walk t path base comps = Ok p →
  node_at t p = Some n →
  makedirs_from t path base comps = (Fails (EEXIST path), t).
Proof.
  revert base. induction comps as [|c comps IH]; intros base; simpl; [done|].
  destruct (decide (c = "")) as [->|Hc]; [by apply IH|].
  destruct (node_at t base) as [[|?]|] eqn:Hb; [|done..].
  destruct (decide (c = ".")) as [->|Hd]; [by apply IH|].
  destruct (decide (c = "..")) as [->|Hdd]; [by apply IH|].
  intros Hw Hn.
  destruct (forallb _ comps) eqn:Hall.
  - rewrite walk_blank in Hw by done. injection Hw as <-.
    unfold mkdir_at. rewrite Hb. fold (child base c). by rewrite Hn.
  - fold (child base c) in Hw.
    destruct (node_at t (child base c)) as [[|?]|] eqn:Hc'.
    + by apply IH.
    + by destruct (walk_through_non_directory t path (child base c) comps p ltac:(by rewrite Hc')).
    + by destruct (walk_through_non_directory t path (child base c) comps p ltac:(by rewrite Hc')).
Qed.

Lemma sim_makedirs_existing w path n :
  lookup_path w path = Some n →
  sim_makedirs path w = (Fails (EEXIST path), w).
Proof.
  unfold lookup_path, resolve, sim_makedirs.
  destruct (decide (path = "")); [done|].
  destruct (walk _ _ _ _) as [p|] eqn:Hw; [|done]. intros Hn.
  rewrite (makedirs_existing _ _ _ _ p n) by done. by destruct w.
Qed.

End Tree.

(** ** Make-directory on a target that exists *)

(** On any operating system: whenever [os.makedirs] raises
    [FileExistsError], the message is the one below, whatever it is that
    exists. *)
Lemma mkdir_file_exists_message {W : Type} {sys : Py.Sys W}
    (dir_name : string) (rest : list string) (s : Py.state W) (e : Py.exn) (w' : W) :
  Py.os_makedirs dir_name (Py.world s) = (Py.Fails e, w') →
  Py.exn_kind_of e = Py.FileExistsError →
  App._handle_mkdir_robust (dir_name :: rest) s
  = (Py.Return
       (false, "", "mkdir: cannot create directory '" +:+ dir_name +:+ "': File exists"),
     Logic.moved s w')
  ∧ Terminal._handle_mkdir_robust (dir_name :: rest) s
    = (Py.Return
         (false, "", "mkdir: cannot create directory '" +:+ dir_name +:+ "': File exists"),
       Logic.moved s w').
Proof.
  intros Hmk Hk.
  unfold App._handle_mkdir_robust, Terminal._handle_mkdir_robust, Py.try_except,
    mbind, Py.M_bind, Py.call.
  rewrite Hmk. simpl. by rewrite Hk.
Qed.

(** C1, as amended.  When the target of [mkdir] exists, as a directory or
    as a file, [_handle_mkdir_robust] fails, creates nothing, and gives one
    and the same message, which names the target and says that the file
    exists; the message does not tell a directory from a file.  So in
    [app.py] and in [terminal.py]. *)
Theorem mkdir_on_existing_target (ai : bool) (s : Py.state SimOS.sim)
    (dir_name : string) (rest : list string) (n : SimOS.node) :
  SimOS.lookup_path (Py.world s) dir_name = Some n →
  App._handle_mkdir_robust (sys := SimOS.sim_sys ai) (dir_name :: rest) s
  = (Py.Return
       (false, "", "mkdir: cannot create directory '" +:+ dir_name +:+ "': File exists"),
     s)
  ∧ Terminal._handle_mkdir_robust (sys := SimOS.sim_sys ai) (dir_name :: rest) s
    = (Py.Return
         (false, "", "mkdir: cannot create directory '" +:+ dir_name +:+ "': File exists"),
       s).
Proof.
  intros Hn.
  unfold App._handle_mkdir_robust, Terminal._handle_mkdir_robust, Py.try_except,
    mbind, Py.M_bind, Py.call.
  simpl. rewrite (sim_makedirs_existing _ _ n) by done. simpl.
  by destruct s.
Qed.

(** [mkdir demo] where [demo] is a directory, and where it is a file. *)
Lemma mkdir_on_existing_target_witness :
  App._handle_mkdir_robust (sys := SimOS.sim_sys false) ["demo"]
    (SimOS.boot Samples.world0)
  = (Py.Return (false, "", "mkdir: cannot create directory 'demo': File exists"),
     SimOS.boot Samples.world0)
  ∧ Terminal._handle_mkdir_robust (sys := SimOS.sim_sys false) ["demo"]
      (SimOS.boot Samples.world_file)
    = (Py.Return (false, "", "mkdir: cannot create directory 'demo': File exists"),
       SimOS.boot Samples.world_file).
Proof.
  split.
  - exact (proj1 (mkdir_on_existing_target false (SimOS.boot Samples.world0)
                    "demo" [] SimOS.Dir eq_refl)).
  - exact (proj2 (mkdir_on_existing_target false (SimOS.boot Samples.world_file)
                    "demo" [] (SimOS.File "a file") eq_refl)).
Defined.

(** C1, as stated, fails.  [demo] is a directory in one world and a file
    in the other; the dispatch of [mkdir demo] fails in both, with the same
    message. *)
Lemma mkdir_message_is_the_same :
  SimOS.lookup_path Samples.world0 "demo" = Some SimOS.Dir
  ∧ SimOS.lookup_path Samples.world_file "demo" = Some (SimOS.File "a file")
  ∧ (App.run_command (sys := SimOS.sim_sys false) 1 "mkdir demo"
       (SimOS.boot Samples.world0)).1
    = Py.Return (false, "", "mkdir: cannot create directory 'demo': File exists")
  ∧ (App.run_command (sys := SimOS.sim_sys false) 1 "mkdir demo"
       (SimOS.boot Samples.world_file)).1
    = Py.Return (false, "", "mkdir: cannot create directory 'demo': File exists")
  ∧ (Terminal.run_command (sys := SimOS.sim_sys false) 1 "mkdir demo"
       (SimOS.boot Samples.world0)).1
    = Py.Return (false, "", "mkdir: cannot create directory 'demo': File exists")
  ∧ (Terminal.run_command (sys := SimOS.sim_sys false) 1 "mkdir demo"
       (SimOS.boot Samples.world_file)).1
    = Py.Return (false, "", "mkdir: cannot create directory 'demo': File exists").
Proof. split_and!; by vm_compute. Qed.

(** The older [_handle_mkdir] of [terminal.py], which the dispatcher does
    not call, is the one that tells the two cases apart. *)
Lemma older_mkdir_tells_apart :
  (Terminal._handle_mkdir (sys := SimOS.sim_sys false) ["demo"]
     (SimOS.boot Samples.world0)).1
  = Py.Return (false, "", "Directory already exists: 'demo'")
  ∧ (Terminal._handle_mkdir (sys := SimOS.sim_sys false) ["demo"]
       (SimOS.boot Samples.world_file)).1
    = Py.Return (false, "", "File exists with same name: 'demo'").
Proof. split; by vm_compute. Qed.

(** ** Change-directory *)

Section ChangeDirectory.
Import PyStr Py Shared SimOS Logic.

Lemma moved_same {W} (s : state W) : moved s (world s) = s.
Proof. by destruct s. Qed.

(** The two handlers, read off in terms of [chdir_argument]. *)
Lemma app_cd_unfold ai target_dir rest (s : state sim) :
  App._handle_cd_robust (sys := sim_sys ai) (target_dir :: rest) s
  = match chdir_argument (sys := sim_sys ai) target_dir (world s) with
    | None => (Return (true, "Changed to: " +:+ absolute (cwd (world s)), ""), s)
    | Some d =>
        match sim_chdir d (world s) with
        | (Ok _, w') => (Return (true, "Changed to: " +:+ absolute (cwd w'), ""), moved s w')
        | (Fails e, w') =>
            (Return (false, "", cd_error target_dir e),
             moved s w')
        end
    end.
Proof.
  unfold App._handle_cd_robust, chdir_argument, cd_error, try_except, mbind, M_bind,
    call, query.
  destruct (decide (target_dir = "..")); [|destruct (decide (target_dir = "."));
    [|destruct (startswith target_dir "~")]].
  all: cbn [os_chdir os_getcwd os_path_expanduser sim_sys world fst snd].
  all: try (destruct (sim_chdir _ (world s)) as [[[]|x] w'];
            [reflexivity | by destruct (exn_kind_of x)]).
  by destruct s.
Qed.

Lemma terminal_cd_unfold ai target_dir rest (s : state sim) :
  Terminal._handle_cd_robust (sys := sim_sys ai) (target_dir :: rest) s
  = match chdir_argument (sys := sim_sys ai) target_dir (world s) with
    | None => (Return (true, "", ""), s)
    | Some d =>
        match sim_chdir d (world s) with
        | (Ok _, w') => (Return (true, "", ""), moved s w')
        | (Fails e, w') =>
            (Return (false, "", cd_error target_dir e),
             moved s w')
        end
    end.
Proof.
  unfold Terminal._handle_cd_robust, chdir_argument, cd_error, try_except, mbind, M_bind,
    call, query.
  destruct (decide (target_dir = "..")); [|destruct (decide (target_dir = "."));
    [|destruct (startswith target_dir "~")]].
  all: cbn [os_chdir os_getcwd os_path_expanduser sim_sys world fst snd].
  all: try (destruct (sim_chdir _ (world s)) as [[[]|x] w'];
            [reflexivity | by destruct (exn_kind_of x)]).
  done.
Qed.

(** [os.chdir("..")] from a directory whose parent is a directory. *)
Lemma sim_chdir_parent w :
  node_at (fs w) (cwd w) = Some Dir →
  node_at (fs w) (removelast (cwd w)) = Some Dir →
  sim_chdir ".." w = (Ok (), with_cwd w (removelast (cwd w))).
Proof.
  intros Hc Hp. unfold sim_chdir, resolve. simpl. rewrite Hc. simpl. by rewrite Hp.
Qed.

End ChangeDirectory.

(** C3, as amended.  [_handle_cd_robust] of both front ends
    - fails with the usage message when no argument is given, and changes
      nothing;
    - on [.] makes no call of [os.chdir] and leaves the state as it is;
    - on [..], from a directory whose parent is a directory, moves to the
      parent;
    - on an argument that starts with [~], calls [os.chdir] on what
      [os.path.expanduser] makes of it, and moves where that leads; [~]
      alone, or followed by a path from there, is expanded to the home
      directory.
    Of a successful call, [app.py] returns the output [Changed to: ]
    followed by the absolute path of the new current directory;
    [terminal.py] returns an empty output. *)
Theorem cd_builtin (ai : bool) (s : Py.state SimOS.sim) (rest : list string) :
  let w := Py.world s in
  (App._handle_cd_robust (sys := SimOS.sim_sys ai) [] s
   = (Py.Return (false, "", "cd: missing directory argument. Usage: cd <directory>"), s)
   ∧ Terminal._handle_cd_robust (sys := SimOS.sim_sys ai) [] s
     = (Py.Return (false, "", "cd: missing directory argument. Usage: cd <directory>"), s))
  ∧ (App._handle_cd_robust (sys := SimOS.sim_sys ai) ("." :: rest) s
     = (Py.Return (true, "Changed to: " +:+ Logic.absolute (SimOS.cwd w), ""), s)
     ∧ Terminal._handle_cd_robust (sys := SimOS.sim_sys ai) ("." :: rest) s
       = (Py.Return (true, "", ""), s))
  ∧ (SimOS.node_at (SimOS.fs w) (SimOS.cwd w) = Some SimOS.Dir →
     SimOS.node_at (SimOS.fs w) (removelast (SimOS.cwd w)) = Some SimOS.Dir →
     let w' := SimOS.with_cwd w (removelast (SimOS.cwd w)) in
     App._handle_cd_robust (sys := SimOS.sim_sys ai) (".." :: rest) s
     = (Py.Return
          (true, "Changed to: " +:+ Logic.absolute (removelast (SimOS.cwd w)), ""),
        Logic.moved s w')
     ∧ Terminal._handle_cd_robust (sys := SimOS.sim_sys ai) (".." :: rest) s
       = (Py.Return (true, "", ""), Logic.moved s w'))
  ∧ (∀ target_dir w',
       PyStr.startswith target_dir "~" = true →
       SimOS.sim_chdir (SimOS.sim_expanduser target_dir w) w = (Py.Ok (), w') →
       App._handle_cd_robust (sys := SimOS.sim_sys ai) (target_dir :: rest) s
       = (Py.Return (true, "Changed to: " +:+ Logic.absolute (SimOS.cwd w'), ""),
          Logic.moved s w')
       ∧ Terminal._handle_cd_robust (sys := SimOS.sim_sys ai) (target_dir :: rest) s
         = (Py.Return (true, "", ""), Logic.moved s w'))
  ∧ (∀ r,
       r = "" ∨ PyStr.startswith r "/" = true →
       SimOS.rstrip_slash (SimOS.home w) +:+ r ≠ "" →
       SimOS.sim_expanduser ("~" +:+ r) w = SimOS.rstrip_slash (SimOS.home w) +:+ r)
  ∧ (∀ args out err s',
       (App._handle_cd_robust (sys := SimOS.sim_sys ai) args s
        = (Py.Return (true, out, err), s') →
        out = "Changed to: " +:+ Logic.absolute (SimOS.cwd (Py.world s')))
       ∧ (Terminal._handle_cd_robust (sys := SimOS.sim_sys ai) args s
          = (Py.Return (true, out, err), s') →
          out = "")).
Proof.
  intros w. split; [done|]. split; [|split; [|split; [|split]]].
  - rewrite app_cd_unfold, terminal_cd_unfold. split; reflexivity.
  - intros Hc Hp w'. rewrite app_cd_unfold, terminal_cd_unfold.
    unfold Logic.chdir_argument. simpl. fold w.
    by rewrite sim_chdir_parent.
  - intros target_dir w' Ht Hcd. rewrite app_cd_unfold, terminal_cd_unfold.
    unfold Logic.chdir_argument.
    destruct (decide (target_dir = "..")) as [->|_]; [discriminate Ht|].
    destruct (decide (target_dir = ".")) as [->|_]; [discriminate Ht|].
    rewrite Ht. simpl. fold w. by rewrite Hcd.
  - intros r Hr Hne. unfold SimOS.sim_expanduser.
    change ("~" +:+ r) with (String "~" r). cbv iota.
    rewrite (bool_decide_eq_true_2 ("~"%char = "~"%char)) by done.
    assert (bool_decide (r = "") || PyStr.startswith r "/" = true) as ->.
    { destruct Hr as [-> | ->]; [done|by rewrite orb_true_r]. }
    simpl. by destruct (SimOS.rstrip_slash (SimOS.home w) +:+ r).
  - intros [|target_dir args] out err s'; [split; intros [=]|].
    rewrite app_cd_unfold, terminal_cd_unfold.
    destruct (Logic.chdir_argument target_dir (Py.world s)) as [d|].
    + destruct (SimOS.sim_chdir d (Py.world s)) as [[[]|e] w1].
      * split; by intros [= <- <- <-].
      * split; intros [=].
    + split; by intros [= <- <- <-].
Qed.

(** From [/home/u]: [cd ..] leads to [/home], and [cd ~/demo] to
    [/home/u/demo], the home directory being [/home/u]. *)
Lemma cd_builtin_witness :
  (App._handle_cd_robust (sys := SimOS.sim_sys false) [".."] (SimOS.boot Samples.world0)).1
  = Py.Return (true, "Changed to: /home", "")
  ∧ (App._handle_cd_robust (sys := SimOS.sim_sys false) ["~/demo"]
       (SimOS.boot Samples.world0)).1
    = Py.Return (true, "Changed to: /home/u/demo", "").
Proof.
  destruct (cd_builtin false (SimOS.boot Samples.world0) []) as (_ & _ & Hup & Hhome & _ & _).
  split.
  - exact (f_equal fst (proj1 (Hup eq_refl eq_refl))).
  - exact (f_equal fst
             (proj1 (Hhome "~/demo"
                       (SimOS.with_cwd Samples.world0 ["home"; "u"; "demo"])
                       eq_refl eq_refl))).
Defined.

(** C3, as stated, fails.  In [terminal.py], [cd ..] from [/home/u]
    succeeds and moves to [/home]; its output is empty and so does not
    report the new directory. *)
Lemma cd_in_terminal_reports_nothing :
  let r := Terminal.run_command (sys := SimOS.sim_sys false) 1 "cd .."
             (SimOS.boot Samples.world0) in
  r.1 = Py.Return (true, "", "")
  ∧ SimOS.sim_getcwd (Py.world r.2) = (Py.Ok "/home", Py.world r.2)
  ∧ PyStr.str_in "/home" "" = false.
Proof. split_and!; by vm_compute. Qed.

(** ** Make-directory with missing parents *)

Section MakeDirs.
Import PyStr Py Shared SimOS Logic.

Lemma split_on_not_nil sep s : split_on sep s ≠ [].
Proof.
  destruct s as [|c s]; simpl; [done|].
  destruct (decide (c = sep)); [done|]. by destruct (split_on sep s).
Qed.

(** Splitting what was joined: a name without the separator, then the
    separator, then the rest. *)
Lemma split_on_app sep x r :
  split_on sep x = [x] →
  split_on sep (x +:+ String sep r) = x :: split_on sep r.
Proof.
  induction x as [|c x IH]; simpl.
  - intros _. by destruct (decide (sep = sep)).
  - destruct (decide (c = sep)) as [|Hc]; [intros [= ? H]; by destruct (split_on_not_nil sep x)|].
    destruct (split_on sep x) as [|w ws] eqn:Hx; [by destruct (split_on_not_nil sep x)|].
    intros [= -> ->]. by rewrite IH.
Qed.

Lemma split_on_join names :
  names ≠ [] → Forall plain names → split_on "/" (join "/" names) = names.
Proof.
  intros Hne Hp. induction Hp as [|x names Hx Hp IH]; [done|]. clear Hne.
  destruct names as [|y names]; simpl.
  - apply Hx.
  - destruct Hx as (_ & _ & _ & Hx).
    change (split_on "/" (x +:+ String "/" (join "/" (y :: names))) = x :: y :: names).
    rewrite split_on_app by done. by rewrite IH.
Qed.

Lemma plain_first name : plain name → ∃ c r, name = String c r ∧ c ≠ "/"%char.
Proof.
  intros (Hne & _ & _ & Hs). destruct name as [|c r]; [done|].
  exists c, r. split; [done|]. intros ->. simpl in Hs.
  destruct (decide ("/"%char = "/"%char)); [|done]. injection Hs as Hs _. done.
Qed.

(** A relative path of plain names is not empty and not absolute. *)
Lemma join_plain_relative names :
  names ≠ [] → Forall plain names →
  join "/" names ≠ "" ∧ startswith (join "/" names) "/" = false.
Proof.
  intros Hne Hp. destruct Hp as [|x names Hx Hp]; [done|].
  destruct (plain_first x Hx) as (c & r & -> & Hc).
  destruct names; simpl; (split; [done|]); by destruct (decide ("/"%char = c)).
Qed.

Lemma node_at_child t base c : node_at t (child base c) = t !! child base c.
Proof. unfold child. by destruct base. Qed.

Lemma node_at_insert_other t p q :
  p ≠ q → node_at (<[q := Dir]> t) p = node_at t p.
Proof. intros H. destruct p; [done|]. simpl. by rewrite lookup_insert_ne. Qed.

(** [os.makedirs] along plain names: if nothing on the way is a file and
    the last name is new, every directory on the way is there
    afterwards, and what was there before still is. *)
Lemma makedirs_plain path comps : ∀ t base,
  comps ≠ [] → Forall plain comps →
  node_at t base = Some Dir →
  (∀ k content, node_at t (base ++ take k comps) ≠ Some (File content)) →
  node_at t (base ++ comps) = None →
  ∃ t', makedirs_from t path base comps = (Ok t', t')
        ∧ (∀ k, node_at t' (base ++ take k comps) = Some Dir)
        ∧ (∀ p n, node_at t p = Some n → node_at t' p = Some n).
Proof.
  induction comps as [|c comps IH]; intros t base Hne Hp Hb Hf Hl; [done|].
  apply Forall_cons in Hp as [Hc Hp].
  pose proof Hc as (Hc1 & Hc2 & Hc3 & _).
  simpl. destruct (decide (c = "")) as [|_]; [done|].
  destruct (decide (c = ".")) as [|_]; [done|].
  destruct (decide (c = "..")) as [|_]; [done|].
  assert (∀ l, base ++ c :: l = child base c ++ l) as Hmid.
  { intros l. unfold child. by rewrite <- app_assoc. }
  assert (∀ t1 : gmap (list string) node, ∀ k,
            node_at t1 (base ++ take k (c :: comps)) = Some Dir ↔
            match k with
            | 0 => node_at t1 base = Some Dir
            | S k' => node_at t1 (child base c ++ take k' comps) = Some Dir
            end) as Htake.
  { intros t1 [|k']; simpl; [by rewrite app_nil_r|]. by rewrite Hmid. }
  destruct comps as [|c2 comps].
  - (* the last name *)
    simpl. unfold mkdir_at. rewrite Hb.
    assert (node_at t (child base c) = None) as Hnew by done.
    rewrite Hnew. eexists. split; [done|]. split.
    + intros [|k]; simpl.
      * rewrite app_nil_r. rewrite node_at_insert_other; [done|].
        unfold child. intros H. apply (f_equal length) in H.
        rewrite length_app in H. simpl in H. lia.
      * rewrite take_nil. fold (child base c). rewrite node_at_child.
        apply lookup_insert_eq.
    + intros p n Hn. rewrite node_at_insert_other; [done|]. intros ->. congruence.
  - (* a name on the way *)
    assert (forallb (λ c', bool_decide (c' = "")) (c2 :: comps) = false) as ->.
    { apply Forall_cons in Hp as [(H2 & _) _]. simpl.
      by rewrite bool_decide_eq_false_2. }
    assert (∀ t1 : gmap (list string) node,
              node_at t1 (child base c) = Some Dir →
              (∀ p n, node_at t p = Some n → node_at t1 p = Some n) →
              (∀ p, length (child base c) < length p → node_at t1 p = node_at t p) →
              ∃ t', makedirs_from t1 path (child base c) (c2 :: comps) = (Ok t', t')
                    ∧ (∀ k, node_at t' (base ++ take k (c :: c2 :: comps)) = Some Dir)
                    ∧ (∀ p n, node_at t p = Some n → node_at t' p = Some n)) as Hgo.
    { intros t1 Hd Hmono Hdeep.
      destruct (IH t1 (child base c)) as (t' & Hrun & Hdirs & Hkeep); try done.
      - intros k content. destruct k as [|k].
        + simpl. rewrite app_nil_r. congruence.
        + rewrite Hdeep.
          * rewrite <- Hmid. apply (Hf (S (S k))).
          * rewrite length_app. simpl. lia.
      - rewrite Hdeep.
        + by rewrite <- Hmid.
        + rewrite length_app. simpl. lia.
      - exists t'. split; [done|]. split.
        + intros k. apply Htake. destruct k as [|k]; [|apply Hdirs].
          apply Hkeep. by apply Hmono.
        + intros p n Hn. by apply Hkeep, Hmono. }
    destruct (node_at t (child base c)) as [[|content]|] eqn:Hchild.
    + by apply Hgo.
    + destruct (Hf 1 content). simpl. exact Hchild.
    + unfold mkdir_at. rewrite Hb, Hchild.
      apply Hgo.
      * rewrite node_at_child. apply lookup_insert_eq.
      * intros p n Hn. rewrite node_at_insert_other; [done|]. intros ->. congruence.
      * intros p Hlen. apply node_at_insert_other. intros ->. lia.
Qed.

End MakeDirs.

(** C10.  Given a relative path of one or more plain names, with the
    current directory there, nothing on the way a file and the last name
    new, [_handle_mkdir_robust] reports success and afterwards every
    directory along the path exists, the missing ancestors having been
    made together with the leaf; what existed before still does.  So in
    [app.py] and in [terminal.py], whose outputs differ in colour only. *)
Theorem mkdir_creates_missing_parents (ai : bool) (s : Py.state SimOS.sim)
    (names rest : list string) :
  let w := Py.world s in
  let dir_name := PyStr.join "/" names in
  names ≠ [] →
  Forall Logic.plain names →
  SimOS.node_at (SimOS.fs w) (SimOS.cwd w) = Some SimOS.Dir →
  (∀ k content,
     SimOS.node_at (SimOS.fs w) (SimOS.cwd w ++ take k names)
     ≠ Some (SimOS.File content)) →
  SimOS.node_at (SimOS.fs w) (SimOS.cwd w ++ names) = None →
  ∃ w',
    App._handle_mkdir_robust (sys := SimOS.sim_sys ai) (dir_name :: rest) s
    = (Py.Return (true, "Created directory: " +:+ dir_name, ""), Logic.moved s w')
    ∧ Terminal._handle_mkdir_robust (sys := SimOS.sim_sys ai) (dir_name :: rest) s
      = (Py.Return
           (true,
            Terminal.Fore.GREEN +:+ "Created directory: " +:+ dir_name
              +:+ Terminal.Style.RESET_ALL +:+ Shared.nl, ""),
         Logic.moved s w')
    ∧ SimOS.cwd w' = SimOS.cwd w
    ∧ (∀ k, SimOS.node_at (SimOS.fs w') (SimOS.cwd w ++ take k names) = Some SimOS.Dir)
    ∧ (∀ p n, SimOS.node_at (SimOS.fs w) p = Some n →
              SimOS.node_at (SimOS.fs w') p = Some n).
Proof.
  intros w dir_name Hne Hp Hcwd Hway Hnew.
  destruct (join_plain_relative names Hne Hp) as [Hd1 Hd2]. fold dir_name in Hd1, Hd2.
  destruct (makedirs_plain dir_name names (SimOS.fs w) (SimOS.cwd w))
    as (t' & Hrun & Hdirs & Hkeep); try done.
  assert (SimOS.sim_makedirs dir_name w = (Py.Ok (), SimOS.with_fs w t')) as Hmk.
  { unfold SimOS.sim_makedirs. destruct (decide (dir_name = "")); [done|].
    rewrite Hd2. unfold dir_name at 2. rewrite split_on_join by done. by rewrite Hrun. }
  exists (SimOS.with_fs w t'). split_and!; try done.
  - unfold App._handle_mkdir_robust, Py.try_except, mbind, Py.M_bind, Py.call.
    cbn [Py.os_makedirs SimOS.sim_sys]. fold w. by rewrite Hmk.
  - unfold Terminal._handle_mkdir_robust, Py.try_except, mbind, Py.M_bind, Py.call.
    cbn [Py.os_makedirs SimOS.sim_sys]. fold w. by rewrite Hmk.
Qed.

(** [mkdir a/b/c] in [/home/u], where there is no [a]: the three
    directories are there afterwards. *)
Lemma mkdir_creates_missing_parents_witness :
  ∃ w',
    App._handle_mkdir_robust (sys := SimOS.sim_sys false) ["a/b/c"]
      (SimOS.boot Samples.world0)
    = (Py.Return (true, "Created directory: a/b/c", ""),
       Logic.moved (SimOS.boot Samples.world0) w')
    ∧ SimOS.node_at (SimOS.fs Samples.world0) ["home"; "u"; "a"] = None
    ∧ SimOS.node_at (SimOS.fs w') ["home"; "u"; "a"] = Some SimOS.Dir
    ∧ SimOS.node_at (SimOS.fs w') ["home"; "u"; "a"; "b"] = Some SimOS.Dir
    ∧ SimOS.node_at (SimOS.fs w') ["home"; "u"; "a"; "b"; "c"] = Some SimOS.Dir.
Proof.
  assert (Forall Logic.plain ["a"; "b"; "c"]) as Hp.
  { repeat constructor; by vm_compute. }
  assert (∀ k content,
            SimOS.node_at (SimOS.fs Samples.world0)
              (SimOS.cwd Samples.world0 ++ take k ["a"; "b"; "c"])
            ≠ Some (SimOS.File content)) as Hway.
  { intros k content. by destruct k as [|[|[|[|k]]]]; vm_compute. }
  destruct (mkdir_creates_missing_parents false (SimOS.boot Samples.world0)
              ["a"; "b"; "c"] [] ltac:(done) Hp eq_refl Hway eq_refl)
    as (w' & Happ & _ & _ & Hdirs & _).
  exists w'. split; [exact Happ|]. split; [reflexivity|].
  split; [exact (Hdirs 1)|]. split; [exact (Hdirs 2)|exact (Hdirs 3)].
Defined.

(** ** The process listing *)

Section Processes.
Import PyStr Py Shared SimOS Logic.

Lemma string_app_assoc (a b c : string) : (a +:+ b) +:+ c = a +:+ (b +:+ c).
Proof.
  induction a as [|x a IH]; [done|].
  change (String x ((a +:+ b) +:+ c) = String x (a +:+ (b +:+ c))). by rewrite IH.
Qed.

Lemma string_app_nil_r (a : string) : a +:+ "" = a.
Proof.
  induction a as [|x a IH]; [done|].
  change (String x (a +:+ "") = String x a). by rewrite IH.
Qed.

(** The first loop skips what cannot be read and counts it all the same. *)
Lemma collect_processes_spec items processes total_count :
  Forall skippable items →
  collect_processes items processes total_count
  = Ok (processes ++ readable items, total_count + length items).
Proof.
  intros H. revert processes total_count.
  induction H as [|item items Hi _ IH]; intros processes total_count; simpl.
  - by rewrite app_nil_r, Nat.add_0_r.
  - destruct item as [info|e]; simpl.
    + rewrite IH. unfold readable. simpl. rewrite <- app_assoc. do 2 f_equal. lia.
    + rewrite IH. unfold readable. simpl.
      destruct Hi as [->| [->| ->]]; do 2 f_equal; lia.
Qed.

Lemma insert_by_pid_perm (x : N * string) (l : list (N * string)) : insert_by N.leb fst x l ≡ₚ x :: l.
Proof.
  induction l as [|y l IH]; simpl; [done|].
  destruct (N.leb x.1 y.1); [done|]. rewrite IH. apply Permutation_swap.
Qed.

Lemma insert_by_pid_sorted (x : N * string) (l : list (N * string)) : ascending l → ascending (insert_by N.leb fst x l).
Proof.
  unfold ascending. induction 1 as [|y l Hl IH Hy]; simpl.
  - by repeat constructor.
  - destruct (N.leb_spec x.1 y.1) as [Hxy|Hxy].
    + constructor; [by constructor|]. by constructor.
    + constructor; [done|].
      destruct l as [|z l]; simpl.
      * constructor. lia.
      * destruct (N.leb_spec x.1 z.1); constructor; [lia|].
        by inversion Hy.
Qed.

(** The listing is sorted by process id, ascending, and holds the same
    entries. *)
Lemma sort_processes_spec processes :
  ascending (sort_processes processes) ∧ sort_processes processes ≡ₚ processes.
Proof.
  unfold sort_processes, sort_by.
  induction processes as [|x l [IH1 IH2]]; simpl; [split; [constructor|done]|].
  split; [by apply insert_by_pid_sorted|].
  by rewrite insert_by_pid_perm, IH2.
Qed.

(** The note is appended on the total count, not on what is listed. *)
Lemma processes_output_note processes total_count :
  App.processes_output processes total_count
  = ("Total Processes: " +:+ pretty total_count +:+ nl +:+ "Showing top 20:" +:+ nl
     +:+ "PID     Name" +:+ nl +:+ repeat_char "-" 30 +:+ nl
     +:+ process_lines (sort_processes processes))
    +:+ (if (20 <? total_count)%nat
         then "... and " +:+ pretty (total_count - 20)%nat +:+ " more processes"
         else "").
Proof.
  unfold App.processes_output.
  destruct (20 <? total_count)%nat.
  - by rewrite !string_app_assoc.
  - by rewrite string_app_nil_r, !string_app_assoc.
Qed.

(** When every process can be read, the count is the number of entries
    and the note goes with the truncation. *)
Lemma process_note_iff_truncated items :
  Forall (λ item, ∃ info, item = Ok info) items →
  collect_processes items [] 0 = Ok (readable items, length (readable items))
  ∧ ((20 <? length (readable items))%nat = true
     ↔ length (take 20 (sort_processes (readable items))) < length (readable items)).
Proof.
  intros Hok. split.
  - rewrite collect_processes_spec.
    + simpl. do 2 f_equal.
      induction Hok as [|item items (info & ->) _ IH]; [done|].
      unfold readable in *. simpl. by rewrite IH.
    + eapply Forall_impl; [exact Hok|]. by intros item (info & ->).
  - rewrite length_take.
    destruct (sort_processes_spec (readable items)) as [_ Hperm].
    rewrite (Permutation_length Hperm). rewrite Nat.ltb_lt. lia.
Qed.

End Processes.

